(** * AllenSDK: the Visual Behavior Neuropixels project cache

    A shallow embedding of

    - [behavior_ecephys_project_cloud_api.py]: [version_check] and the
      class [BehaviorEcephysProjectCloudApi];
    - [behavior_ecephys_project_cache.py]: the facade class
      [VisualBehaviorEcephysProjectCache].

    Python objects are immutable handles (records); everything a method can
    mutate lives in a [World] that is threaded through a state-and-exception
    monad.  A raised exception keeps the world reached so far, as in Python. *)

From Stdlib Require Import ZArith NArith String Ascii List Bool Lia Sorted.
From stdpp Require Import base option list strings gmap pretty.

Local Open Scope string_scope.
Local Open Scope Z_scope.

(** ** Python exceptions *)

Inductive exn : Type :=
| RuntimeError (msg : string)
| ValueError (msg : string)
| TypeError (msg : string)
| KeyError (key : string)
| IndexError (msg : string)
| AttributeError (msg : string)
| FileNotFoundError (msg : string)
| NotImplementedError (msg : string)
| BehaviorCloudCacheVersionException (msg : string)
| ExternalError (origin msg : string).

Inductive result (A : Type) : Type :=
| Ok (a : A)
| Raise (e : exn).
Arguments Ok {A} a.
Arguments Raise {A} e.

Definition is_ok {A} (r : result A) : bool :=
  match r with Ok _ => true | Raise _ => false end.

(** ** Strings *)

Definition nl : string := String (ascii_of_nat 10) EmptyString.

(** [sub] occurs in [s]. *)
Definition occurs_in (sub s : string) : Prop :=
  exists pre post, s = pre +:+ sub +:+ post.

(** ** The [semver] package

    [semver.VersionInfo.parse] and the comparison operators of
    [semver.VersionInfo], for ASCII strings. *)

Module Semver.

Record VersionInfo : Type := {
  major : N;
  minor : N;
  patch : N;
  prerelease : option string;
  build : option string
}.

Definition is_digit (c : ascii) : bool :=
  let n := nat_of_ascii c in (48 <=? n)%nat && (n <=? 57)%nat.

Definition is_letter (c : ascii) : bool :=
  let n := nat_of_ascii c in
  ((65 <=? n)%nat && (n <=? 90)%nat) || ((97 <=? n)%nat && (n <=? 122)%nat).

(** [[0-9a-zA-Z-]] *)
Definition is_ident_char (c : ascii) : bool :=
  is_digit c || is_letter c || Ascii.eqb c "-".

Definition all_chars (p : ascii -> bool) (s : string) : bool :=
  forallb p (list_ascii_of_string s).

Definition some_char (p : ascii -> bool) (s : string) : bool :=
  existsb p (list_ascii_of_string s).

(** [str.split(sep)] for a one-character separator. *)
Fixpoint split (sep : ascii) (s : string) : list string :=
  match s with
  | EmptyString => [EmptyString]
  | String c r =>
      if Ascii.eqb c sep then EmptyString :: split sep r
      else match split sep r with
           | h :: t => String c h :: t
           | [] => [String c EmptyString]
           end
  end.

(** The text before the first [sep] and, when there is one, the text after. *)
Fixpoint cut (sep : ascii) (s : string) : string * option string :=
  match s with
  | EmptyString => (EmptyString, None)
  | String c r =>
      if Ascii.eqb c sep then (EmptyString, Some r)
      else let '(h, t) := cut sep r in (String c h, t)
  end.

(** [int(text)] for a string of ASCII digits. *)
Definition int_of_digits (s : string) : N :=
  fold_left (fun acc c => (10 * acc + N.of_nat (nat_of_ascii c - 48))%N)
            (list_ascii_of_string s) 0%N.

(** [0|[1-9]\d*] *)
Definition numeric_identifier (s : string) : bool :=
  match s with
  | EmptyString => false
  | String c r =>
      if Ascii.eqb c "0" then
        match r with EmptyString => true | _ => false end
      else is_digit c && all_chars is_digit r
  end.

(** [0|[1-9]\d*|\d*[a-zA-Z-][0-9a-zA-Z-]*] *)
Definition prerelease_identifier (s : string) : bool :=
  numeric_identifier s
  || (all_chars is_ident_char s && some_char (fun c => negb (is_digit c)) s).

(** [[0-9a-zA-Z-]+] *)
Definition build_identifier (s : string) : bool :=
  match s with
  | EmptyString => false
  | _ => all_chars is_ident_char s
  end.

(** [$] also matches just before a final newline. *)
Fixpoint drop_final_newline (s : string) : string :=
  match s with
  | EmptyString => EmptyString
  | String c EmptyString =>
      if Ascii.eqb c (ascii_of_nat 10) then EmptyString else s
  | String c r => String c (drop_final_newline r)
  end.

Definition parse (version : string) : result VersionInfo :=
  let bad := Raise (ValueError (version +:+ " is not valid SemVer string")) in
  let '(main, bld) := cut "+" (drop_final_newline version) in
  let '(core, pre) := cut "-" main in
  let build_ok :=
    match bld with
    | None => true
    | Some b => forallb build_identifier (split "." b)
    end in
  let pre_ok :=
    match pre with
    | None => true
    | Some p => forallb prerelease_identifier (split "." p)
    end in
  match split "." core with
  | [a; b; c] =>
      if numeric_identifier a && numeric_identifier b && numeric_identifier c
         && pre_ok && build_ok
      then Ok {| major := int_of_digits a; minor := int_of_digits b;
                 patch := int_of_digits c; prerelease := pre; build := bld |}
      else bad
  | _ => bad
  end.

(** One dot-separated part of a prerelease, after [convert]. *)
Inductive tag : Type :=
| TInt (n : N)
| TStr (s : string).

Definition convert (text : string) : tag :=
  match text with
  | EmptyString => TStr text
  | _ => if all_chars is_digit text then TInt (int_of_digits text) else TStr text
  end.

Definition split_key (key : string) : list tag := map convert (split "." key).

Definition cmp_prerelease_tag (a b : tag) : comparison :=
  match a, b with
  | TInt x, TInt y => N.compare x y
  | TInt _, TStr _ => Lt
  | TStr _, TInt _ => Gt
  | TStr x, TStr y => String.compare x y
  end.

(** The [for ... in zip(a_parts, b_parts)] loop with its [else] clause. *)
Fixpoint cmp_parts (xs ys : list tag) (otherwise : comparison) : comparison :=
  match xs, ys with
  | x :: xs', y :: ys' =>
      match cmp_prerelease_tag x y with
      | Eq => cmp_parts xs' ys' otherwise
      | c => c
      end
  | _, _ => otherwise
  end.

Definition _nat_cmp (a b : option string) : comparison :=
  let a := default EmptyString a in
  let b := default EmptyString b in
  cmp_parts (split_key a) (split_key b)
            (Nat.compare (String.length a) (String.length b)).

Definition is_empty (o : option string) : bool :=
  match o with
  | None | Some EmptyString => true
  | _ => false
  end.

Definition cmp3 (v1 v2 : N * N * N) : comparison :=
  let '(a1, b1, c1) := v1 in
  let '(a2, b2, c2) := v2 in
  match N.compare a1 a2 with
  | Eq => match N.compare b1 b2 with
          | Eq => N.compare c1 c2
          | c => c
          end
  | c => c
  end.

Definition compare (self other : VersionInfo) : comparison :=
  match cmp3 (major self, minor self, patch self)
             (major other, minor other, patch other) with
  | Eq =>
      match _nat_cmp (prerelease self) (prerelease other) with
      | Eq => Eq
      | rccmp =>
          if is_empty (prerelease self) then Gt
          else if is_empty (prerelease other) then Lt
          else rccmp
      end
  | c => c
  end.

(** [self < other], [self <= other], [self >= other] *)
Definition lt (self other : VersionInfo) : bool :=
  match compare self other with Lt => true | _ => false end.
Definition le (self other : VersionInfo) : bool :=
  match compare self other with Gt => false | _ => true end.
Definition ge (self other : VersionInfo) : bool :=
  match compare self other with Lt => false | _ => true end.

End Semver.

(** ** The world

    Local storage, the remote requests issued so far, and the attributes that
    methods assign to: [cache._manifest] and the table attributes of the
    fetch API. *)

Definition cell : Type := option Z.   (* [None] is NaN *)

Inductive File : Type :=
| CsvFile (header : list string) (records : list (list cell))
| NwbFile (content : string).

Record Manifest : Type := {
  metadata_file_names : option (list string);
  version : string;
  _data_pipeline : list (gmap string string)
}.

Record DataFrame : Type := {
  index_name : option string;
  columns : list string;
  rows : list (cell * list cell)
}.

Record World : Type := {
  fs : gmap string File;
  net_log : list string;
  _manifest : Manifest;
  attrs : gmap string DataFrame
}.

Definition M (A : Type) : Type := World -> result A * World.

Definition ret {A} (a : A) : M A := fun w => (Ok a, w).
Definition raise {A} (e : exn) : M A := fun w => (Raise e, w).
Definition bind {A B} (c : M A) (k : A -> M B) : M B :=
  fun w => match c w with
           | (Ok a, w') => k a w'
           | (Raise e, w') => (Raise e, w')
           end.
Definition lift {A} (r : result A) : M A := fun w => (r, w).
Definition ask {A} (q : World -> result A) : M A := fun w => (q w, w).

Notation "x <- c ;; k" := (bind c (fun x => k))
  (at level 100, c at next level, right associativity).

Definition setattr (name : string) (df : DataFrame) : M unit :=
  fun w => (Ok tt, {| fs := fs w; net_log := net_log w;
                      _manifest := _manifest w;
                      attrs := <[name := df]> (attrs w) |}).

Definition getattr (name : string) : M DataFrame :=
  fun w => match attrs w !! name with
           | Some df => (Ok df, w)
           | None =>
               (Raise (AttributeError
                  ("'BehaviorEcephysProjectCloudApi' object has no attribute '"
                   +:+ name +:+ "'")), w)
           end.

(** ** The part of pandas the code uses (integer cells; messages abridged)

    A cell is an integer that pandas keeps exact, or missing: the model
    covers files whose integers fit in 64 bits, and in 53 bits in a column
    that has a missing cell.  Outside this range pandas changes the type of
    the column (64-bit floats, or strings), which is not modelled. *)

Module Pandas.

Definition cell_at (vals : list cell) (i : nat) : cell := mjoin (vals !! i).

Definition position (name : string) (names : list string) : option nat :=
  fst <$> list_find (fun c => c = name) names.

Fixpoint range_index (start : Z) (records : list (list cell))
  : list (cell * list cell) :=
  match records with
  | [] => []
  | r :: rest => (Some start, r) :: range_index (start + 1) rest
  end.

Definition read_csv (path : string) : M DataFrame :=
  fun w => match fs w !! path with
           | Some (CsvFile header records) =>
               (Ok {| index_name := None; columns := header;
                      rows := range_index 0 records |}, w)
           | Some (NwbFile _) =>
               (Raise (ExternalError "pandas" "Error tokenizing data"), w)
           | None =>
               (Raise (FileNotFoundError
                         ("No such file or directory: '" +:+ path +:+ "'")), w)
           end.

Definition set_index (name : string) (df : DataFrame) : result DataFrame :=
  match position name (columns df) with
  | None => Raise (KeyError name)
  | Some i =>
      Ok {| index_name := Some name;
            columns := delete i (columns df);
            rows := map (fun r => (cell_at (snd r) i, delete i (snd r)))
                        (rows df) |}
  end.

Definition cell_is (v : Z) (c : cell) : bool :=
  match c with Some x => Z.eqb x v | None => false end.

(** [df.query(f"{name}=={v}")]: [name] is a column, or the index by its
    name, or the index by the word [index]. *)
Definition query_eq (name : string) (v : Z) (df : DataFrame)
  : result DataFrame :=
  let keep rs := {| index_name := index_name df; columns := columns df;
                    rows := rs |} in
  match position name (columns df) with
  | Some i =>
      Ok (keep (List.filter (fun r => cell_is v (cell_at (snd r) i)) (rows df)))
  | None =>
      if String.eqb name "index" || bool_decide (index_name df = Some name)
      then Ok (keep (List.filter (fun r => cell_is v (fst r)) (rows df)))
      else Raise (ExternalError "pandas"
                    ("name '" +:+ name +:+ "' is not defined"))
  end.

(** [df.shape[0]] *)
Definition shape0 (df : DataFrame) : nat := List.length (rows df).

(** What [squeeze] makes of a frame of one row. *)
Inductive squeezed : Type :=
| Scalar (v : cell)
| Series (labels : list string) (values : list cell).

Definition squeeze_row (labels : list string) (values : list cell) : squeezed :=
  match labels with
  | [_] => Scalar (cell_at values 0)
  | _ => Series labels values
  end.

(** [row.name] on a squeezed row *)
Definition attribute (name : string) (row : squeezed) : result cell :=
  match row with
  | Scalar _ =>
      Raise (AttributeError
               ("'numpy.int64' object has no attribute '" +:+ name +:+ "'"))
  | Series labels values =>
      match position name labels with
      | Some i => Ok (cell_at values i)
      | None =>
          Raise (AttributeError
                   ("'Series' object has no attribute '" +:+ name +:+ "'"))
      end
  end.

(** [df[name]]: the column as a series *)
Definition column (name : string) (df : DataFrame) : result (list cell) :=
  match position name (columns df) with
  | Some i => Ok (map (fun r => cell_at (snd r) i) (rows df))
  | None => Raise (KeyError name)
  end.

(** [int(series)] *)
Definition int_of_series (s : list cell) : result Z :=
  match s with
  | [Some v] => Ok v
  | [None] => Raise (ValueError "cannot convert float NaN to integer")
  | _ => Raise (TypeError "cannot convert the series to <class 'int'>")
  end.

End Pandas.

(** ** The cloud cache

    [S3CloudCache], [LocalCache] and [StaticLocalCache] are defined in
    [allensdk.api.cloud_cache], outside these sources.  A cache object is
    its class name, its [file_id_column] and the behaviour of the methods and
    properties the two classes below call.  [metadata_path] and [data_path]
    are modelled as queries: they answer with a [CacheEntry] from the world
    as it is.  What a cache writes into its own directory while it looks a
    file up (a link to an identical copy, say) is not modelled. *)

Record CacheEntry : Type := {
  exists_ : bool;          (* path['exists'] *)
  local_path : string      (* path['local_path'] *)
}.

Module CloudCache.

Record t : Type := {
  class_name : string;
  file_id_column : string;
  load_manifest : string -> M unit;
  load_last_manifest : M unit;
  metadata_path : string -> World -> result CacheEntry;
  data_path : string -> World -> result CacheEntry;
  download_metadata : string -> M string;
  download_data : string -> M string;
  construct_local_manifest : M unit;
  compare_manifests : string -> string -> M string;
  load_latest_manifest : M unit;
  latest_downloaded_manifest_file : M string;
  latest_manifest_file : M string;
  list_all_downloaded_manifests : M (list string);
  manifest_file_names : M (list string);
  current_manifest : M (option string)
}.

End CloudCache.

(** ** Session objects *)

Inductive Session : Type :=
| BehaviorSession (content : string)
| BehaviorEcephysSession (content : string).

(** Modelled from the spec: [from_nwb_path] of the session classes, which
    are outside these sources.  It takes a resolved local path and returns
    the session object read from it, or fails with a format or parse error. *)
Definition from_nwb_path (cls : string -> Session) (path : string) : M Session :=
  fun w => match fs w !! path with
           | Some (NwbFile content) => (Ok (cls content), w)
           | Some (CsvFile _ _) =>
               (Raise (ExternalError "pynwb" ("not an NWB file: " +:+ path)), w)
           | None =>
               (Raise (ExternalError "pynwb" ("unable to open " +:+ path)), w)
           end.

(** ** [behavior_ecephys_project_cloud_api.py] *)

(** [[min inclusive, max exclusive)] *)
Definition MANIFEST_COMPATIBILITY : list string := ["0.1.0"; "1.0.0"].

Definition version_check (manifest_version data_pipeline_version : string)
    (cmin cmax : string) : result unit :=
  match Semver.parse manifest_version with
  | Raise e => Raise e
  | Ok mver_parsed =>
  match Semver.parse cmin with
  | Raise e => Raise e
  | Ok cmin_parsed =>
  match Semver.parse cmax with
  | Raise e => Raise e
  | Ok cmax_parsed =>
      if Semver.lt mver_parsed cmin_parsed || Semver.ge mver_parsed cmax_parsed
      then
        let estr :=
          "the manifest has manifest_version " +:+ manifest_version +:+ " but "
          +:+ "this version of AllenSDK is compatible only with manifest "
          +:+ "versions " +:+ cmin +:+ " <= X < " +:+ cmax +:+ ". " +:+ nl
          +:+ "Consider using a version of AllenSDK closer to the version "
          +:+ "used to release the data: " +:+ data_pipeline_version in
        Raise (BehaviorCloudCacheVersionException estr)
      else Ok tt
  end end end.

Module BehaviorEcephysProjectCloudApi.

Record t : Type := {
  cache : CloudCache.t;
  skip_version_check : bool;
  _local : bool
}.

Definition expected_metadata : gset string :=
  list_to_set ["behavior_sessions"; "sessions"; "probes"; "units"; "channels"].

(** [f"{s}"] for a set of strings; Python leaves the order of the elements
    unspecified. *)
Definition set_repr (s : gset string) : string :=
  match elements s with
  | [] => "set()"
  | x :: xs =>
      "{" +:+ fold_left (fun acc y => acc +:+ ", '" +:+ y +:+ "'") xs
                        ("'" +:+ x +:+ "'") +:+ "}"
  end.

(** [[i for i in pipeline if i['name'] == "AllenSDK"]] *)
Fixpoint allensdk_entries (pipeline : list (gmap string string))
  : result (list (gmap string string)) :=
  match pipeline with
  | [] => Ok []
  | i :: rest =>
      match i !! "name" with
      | None => Raise (KeyError "name")
      | Some name =>
          match allensdk_entries rest with
          | Raise e => Raise e
          | Ok l => Ok (if String.eqb name "AllenSDK" then i :: l else l)
          end
      end
  end.

(** [[...][0]["version"]] *)
Definition data_sdk_version (pipeline : list (gmap string string))
  : result string :=
  match allensdk_entries pipeline with
  | Raise e => Raise e
  | Ok [] => Raise (IndexError "list index out of range")
  | Ok (i :: _) =>
      match i !! "version" with
      | Some v => Ok v
      | None => Raise (KeyError "version")
      end
  end.

Definition _get_local_path (self : t) (fname file_id : option string)
  : M string :=
  let found (path : CacheEntry) : M string :=
    if negb (exists_ path) then
      raise (FileNotFoundError
               ("You started a cache without a "
                +:+ "connection to s3 and " +:+ local_path path +:+ " is "
                +:+ "not already on your system"))
    else ret (local_path path) in
  match fname, file_id with
  | None, None => raise (ValueError "Must pass either fname or file_id")
  | Some _, Some _ =>
      raise (ValueError "Must pass only one of fname or file_id")
  | Some fname, None =>
      path <- ask (CloudCache.metadata_path (cache self) fname) ;;
      found path
  | None, Some file_id =>
      path <- ask (CloudCache.data_path (cache self) file_id) ;;
      found path
  end.

Definition _get_metadata_path (self : t) (fname : string) : M string :=
  if _local self then _get_local_path self (Some fname) None
  else CloudCache.download_metadata (cache self) fname.

Definition _get_data_path (self : t) (file_id : string) : M string :=
  if _local self then _get_local_path self None (Some file_id)
  else CloudCache.download_data (cache self) file_id.

(** The five [_get_*_table] methods: resolve the metadata file, read it,
    index it and assign the attribute. *)
Definition _load_table (self : t) (fname index attr : string) : M unit :=
  table_path <- _get_metadata_path self fname ;;
  df <- Pandas.read_csv table_path ;;
  indexed <- lift (Pandas.set_index index df) ;;
  setattr attr indexed.

Definition _get_ecephys_session_table (self : t) : M unit :=
  _load_table self "sessions" "ecephys_session_id" "_ecephys_session_table".
Definition _get_behavior_session_table (self : t) : M unit :=
  _load_table self "behavior_sessions" "behavior_session_id"
              "_behavior_session_table".
Definition _get_probe_table (self : t) : M unit :=
  _load_table self "probes" "ecephys_probe_id" "_probe_table".
Definition _get_unit_table (self : t) : M unit :=
  _load_table self "units" "unit_id" "_unit_table".
Definition _get_channel_table (self : t) : M unit :=
  _load_table self "channels" "ecephys_channel_id" "_channel_table".

Definition get_ecephys_session_table (self : t) : M DataFrame :=
  getattr "_ecephys_session_table".
Definition get_behavior_session_table (self : t) : M DataFrame :=
  getattr "_behavior_session_table".
Definition get_probe_table (self : t) : M DataFrame := getattr "_probe_table".
Definition get_unit_table (self : t) : M DataFrame := getattr "_unit_table".
Definition get_channel_table (self : t) : M DataFrame :=
  getattr "_channel_table".

(** Everything in [load_manifest] after the version check. *)
Definition _load_tables (self : t) : M unit :=
  _ <- _get_ecephys_session_table self ;;
  _ <- _get_behavior_session_table self ;;
  _ <- _get_unit_table self ;;
  _ <- _get_probe_table self ;;
  _get_channel_table self.

Definition load_manifest (self : t) (manifest_name : option string) : M unit :=
  _ <- match manifest_name with
       | None => CloudCache.load_last_manifest (cache self)
       | Some name => CloudCache.load_manifest (cache self) name
       end ;;
  manifest <- ask (fun w => Ok (_manifest w)) ;;
  match metadata_file_names manifest with
  | None =>
      raise (RuntimeError
               ("S3CloudCache object has no metadata "
                +:+ "file names. BehaviorProjectCloudApi "
                +:+ "expects a S3CloudCache passed which "
                +:+ "has already run load_manifest()"))
  | Some names =>
      let cache_metadata : gset string := list_to_set names in
      if bool_decide (cache_metadata <> expected_metadata) then
        raise (RuntimeError
                 ("expected S3CloudCache object to have "
                  +:+ "metadata file names: " +:+ set_repr expected_metadata
                  +:+ " but it has " +:+ set_repr cache_metadata))
      else
        _ <- (if negb (skip_version_check self) then
                data_sdk_version <-
                  lift (data_sdk_version (_data_pipeline manifest)) ;;
                lift (version_check (version manifest) data_sdk_version
                        (nth 0 MANIFEST_COMPATIBILITY EmptyString)
                        (nth 1 MANIFEST_COMPATIBILITY EmptyString))
              else ret tt) ;;
        _load_tables self
  end.

Definition __init__ (cache : CloudCache.t) (skip_version_check _local : bool)
  : M t :=
  let self := {| cache := cache; skip_version_check := skip_version_check;
                 _local := _local |} in
  _ <- load_manifest self None ;;
  ret self.

(** [LocalCache] and [StaticLocalCache] differ in class only here, so the
    constructed cache object is passed in. *)
Definition from_local_cache (local_cache : CloudCache.t) : M t :=
  __init__ local_cache false true.

Definition from_s3_cache (s3_cache : CloudCache.t) : M t :=
  __init__ s3_cache false false.

(** [str(int(row[self.cache.file_id_column]))] *)
Definition _file_id (self : t) (row : DataFrame) : result string :=
  match Pandas.column (CloudCache.file_id_column (cache self)) row with
  | Raise e => Raise e
  | Ok series =>
      match Pandas.int_of_series series with
      | Raise e => Raise e
      | Ok v => Ok (pretty v)
      end
  end.

Definition get_behavior_session (self : t) (behavior_session_id : Z)
  : M Session :=
  table <- getattr "_behavior_session_table" ;;
  row <- lift (Pandas.query_eq "behavior_session_id" behavior_session_id
                 table) ;;
  match rows row with
  | [(_, values)] =>
      esid <- lift (Pandas.attribute "ecephys_session_id"
                      (Pandas.squeeze_row (columns row) values)) ;;
      sessions <- getattr "_ecephys_session_table" ;;
      row <- lift (match esid with
                   | Some esid => Pandas.query_eq "index" esid sessions
                   | None =>
                       Raise (ExternalError "pandas"
                                "name 'nan' is not defined")
                   end) ;;
      file_id <- lift (_file_id self row) ;;
      data_path <- _get_data_path self file_id ;;
      from_nwb_path BehaviorSession data_path
  | _ =>
      raise (RuntimeError
               ("The behavior_session_table should have "
                +:+ "1 and only 1 entry for a given "
                +:+ "behavior_session_id. For "
                +:+ pretty behavior_session_id
                +:+ "  there are " +:+ pretty (Pandas.shape0 row)
                +:+ " entries."))
  end.

Definition get_ecephys_session (self : t) (ecephys_session_id : Z)
  : M Session :=
  table <- getattr "_ecephys_session_table" ;;
  row <- lift (Pandas.query_eq "index" ecephys_session_id table) ;;
  if negb (Nat.eqb (Pandas.shape0 row) 1) then
    raise (RuntimeError
             ("The behavior_ecephys_session_table should "
              +:+ "have 1 and only 1 entry for a given "
              +:+ "ecephys_session_id. For "
              +:+ pretty ecephys_session_id
              +:+ "  there are " +:+ pretty (Pandas.shape0 row)
              +:+ " entries."))
  else
    file_id <- lift (_file_id self row) ;;
    data_path <- _get_data_path self file_id ;;
    from_nwb_path BehaviorEcephysSession data_path.

End BehaviorEcephysProjectCloudApi.

(** ** [behavior_ecephys_project_cache.py] *)

(** What a facade method hands back: [None], a table, or a tuple of tables. *)
Inductive PyValue : Type :=
| PyNone
| PyFrame (df : DataFrame)
| PyTuple (items : list DataFrame).

(** A fetch API of some other class: its class name and what the methods
    the facade calls do. *)
Record OtherApi : Type := {
  type_name : string;
  other_get_ecephys_session_table : M DataFrame;
  other_get_behavior_session_table : M DataFrame;
  other_get_probe_table : M DataFrame;
  other_get_channel_table : M DataFrame;
  other_get_unit_table : M DataFrame;
  other_get_ecephys_session : Z -> M Session;
  other_get_behavior_session : Z -> M Session
}.

(** [fetch_api: Optional[BehaviorEcephysProjectCloudApi]], and anything
    else Python lets a caller pass. *)
Inductive FetchApi : Type :=
| ApiNone
| ApiCloud (api : BehaviorEcephysProjectCloudApi.t)
| ApiOther (api : OtherApi).

(** Modelled from the spec: [call_caching] of
    [allensdk.api.warehouse_cache.caching_utilities], which is outside these
    sources.  It is a caching wrapper that, given a producer and a result,
    would persist the result under a key; lazily it reads what was persisted
    and calls the producer only when there is nothing to read.  With writing
    disabled and laziness disabled it always calls the producer directly. *)
Definition call_caching {A} (fetch : M A) (write : A -> M A) (lazy : bool)
    (read : option (M A)) : M A :=
  let produce := (data <- fetch ;; _ <- write data ;; ret data) in
  match lazy, read with
  | true, Some read =>
      fun w => match read w with
               | (Ok data, w') => (Ok data, w')
               | (Raise _, w') => produce w'
               end
  | _, _ => produce
  end.

Module VisualBehaviorEcephysProjectCache.

Module Api := BehaviorEcephysProjectCloudApi.

Record t : Type := {
  fetch_api : FetchApi;
  fetch_tries : Z
}.

(** [fetch_api = None], [fetch_tries = 2] *)
Definition __init__ (fetch_api : option FetchApi) (fetch_tries : option Z) : t :=
  {| fetch_api := default ApiNone fetch_api;
     fetch_tries := default 2 fetch_tries |}.

(** [type(self).__name__] and [type(self.fetch_api).__name__] *)
Definition self_type_name : string := "VisualBehaviorEcephysProjectCache".

Definition api_type_name (api : FetchApi) : string :=
  match api with
  | ApiNone => "NoneType"
  | ApiCloud _ => "BehaviorEcephysProjectCloudApi"
  | ApiOther o => type_name o
  end.

(** [isinstance(self.fetch_api, BehaviorEcephysProjectCloudApi)] *)
Definition is_cloud_api (api : FetchApi) : bool :=
  match api with ApiCloud _ => true | _ => false end.

(** [self.cache] is [None] from construction on. *)
Definition manifest (self : t) : M PyValue :=
  raise (NotImplementedError
           ("A " +:+ self_type_name +:+ " "
            +:+ "based on " +:+ api_type_name (fetch_api self) +:+ " "
            +:+ "does not have an accessible manifest "
            +:+ "property")).

Definition from_s3_cache (s3_cache : CloudCache.t) : M t :=
  api <- Api.from_s3_cache s3_cache ;;
  ret (__init__ (Some (ApiCloud api)) None).

Definition from_local_cache (local_cache : CloudCache.t) : M t :=
  api <- Api.from_local_cache local_cache ;;
  ret (__init__ (Some (ApiCloud api)) None).

Definition _cache_not_implemented {A} (self : t) (method_name : string)
  : M A :=
  let msg := "Method " +:+ method_name +:+ " does not exist for this " in
  let msg := msg +:+ self_type_name +:+ ", which is based on " in
  let msg := msg +:+ api_type_name (fetch_api self) in
  raise (NotImplementedError msg).

(** The guard that opens every manifest method: raise unless the fetch API
    is a [BehaviorEcephysProjectCloudApi], else go on with its cache. *)
Definition with_cloud_cache {A} (self : t) (method_name : string)
    (body : Api.t -> M A) : M A :=
  match fetch_api self with
  | ApiCloud api => body api
  | _ => _cache_not_implemented self method_name
  end.

Definition construct_local_manifest (self : t) : M unit :=
  with_cloud_cache self "construct_local_manifest"
    (fun api => CloudCache.construct_local_manifest (Api.cache api)).

Definition compare_manifests (self : t) (manifest_0_name manifest_1_name : string)
  : M string :=
  with_cloud_cache self "compare_manifests"
    (fun api => CloudCache.compare_manifests (Api.cache api)
                  manifest_0_name manifest_1_name).

Definition load_latest_manifest (self : t) : M unit :=
  with_cloud_cache self "load_latest_manifest"
    (fun api => CloudCache.load_latest_manifest (Api.cache api)).

Definition latest_downloaded_manifest_file (self : t) : M string :=
  with_cloud_cache self "latest_downloaded_manifest_file"
    (fun api => CloudCache.latest_downloaded_manifest_file (Api.cache api)).

Definition latest_manifest_file (self : t) : M string :=
  with_cloud_cache self "latest_manifest_file"
    (fun api => CloudCache.latest_manifest_file (Api.cache api)).

Definition load_manifest (self : t) (manifest_name : string) : M unit :=
  with_cloud_cache self "load_manifest"
    (fun api => Api.load_manifest api (Some manifest_name)).

Definition list_all_downloaded_manifests (self : t) : M (list string) :=
  with_cloud_cache self "list_all_downloaded_manifests"
    (fun api => CloudCache.list_all_downloaded_manifests (Api.cache api)).

Definition list_manifest_file_names (self : t) : M (list string) :=
  with_cloud_cache self "list_manifest_file_names"
    (fun api => CloudCache.manifest_file_names (Api.cache api)).

Definition current_manifest (self : t) : M (option string) :=
  with_cloud_cache self "current_manifest"
    (fun api => CloudCache.current_manifest (Api.cache api)).

(** [self.fetch_api.<method>]: the attribute lookup fails on [None]. *)
Definition no_attribute {A} (name : string) : M A :=
  raise (AttributeError
           ("'NoneType' object has no attribute '" +:+ name +:+ "'")).

Definition api_get_ecephys_session_table (api : FetchApi) : M DataFrame :=
  match api with
  | ApiNone => no_attribute "get_ecephys_session_table"
  | ApiCloud a => Api.get_ecephys_session_table a
  | ApiOther o => other_get_ecephys_session_table o
  end.

Definition api_get_behavior_session_table (api : FetchApi) : M DataFrame :=
  match api with
  | ApiNone => no_attribute "get_behavior_session_table"
  | ApiCloud a => Api.get_behavior_session_table a
  | ApiOther o => other_get_behavior_session_table o
  end.

Definition api_get_probe_table (api : FetchApi) : M DataFrame :=
  match api with
  | ApiNone => no_attribute "get_probe_table"
  | ApiCloud a => Api.get_probe_table a
  | ApiOther o => other_get_probe_table o
  end.

Definition api_get_channel_table (api : FetchApi) : M DataFrame :=
  match api with
  | ApiNone => no_attribute "get_channel_table"
  | ApiCloud a => Api.get_channel_table a
  | ApiOther o => other_get_channel_table o
  end.

Definition api_get_unit_table (api : FetchApi) : M DataFrame :=
  match api with
  | ApiNone => no_attribute "get_unit_table"
  | ApiCloud a => Api.get_unit_table a
  | ApiOther o => other_get_unit_table o
  end.

(** [return self.fetch_api.get_ecephys_session_table(),] *)
Definition get_ecephys_session_table (self : t) : M PyValue :=
  df <- api_get_ecephys_session_table (fetch_api self) ;;
  ret (PyTuple [df]).

Definition get_behavior_session_table (self : t) : M PyValue :=
  df <- api_get_behavior_session_table (fetch_api self) ;;
  ret (PyTuple [df]).

(** [self.fetch_api.get_probe_table(),] with no [return] *)
Definition get_probe_table (self : t) : M PyValue :=
  _ <- api_get_probe_table (fetch_api self) ;;
  ret PyNone.

Definition get_channel_table (self : t) : M PyValue :=
  df <- api_get_channel_table (fetch_api self) ;;
  ret (PyTuple [df]).

Definition get_unit_table (self : t) : M PyValue :=
  df <- api_get_unit_table (fetch_api self) ;;
  ret (PyTuple [df]).

Section SessionFetch.

(** The caching helper as the facade calls it: [fetch], [write], [lazy]
    and [read]; every other argument is left at its default. *)
Variable helper : M Session -> (Session -> M Session) -> bool
                  -> option (M Session) -> M Session.

Definition fetch_with (fetch_session : M Session) : M Session :=
  helper fetch_session
         (fun x => ret x)              (* not writing anything *)
         false                         (* can't actually read from file cache *)
         (Some fetch_session).

Definition get_ecephys_session_with (self : t) (ecephys_session_id : Z)
  : M Session :=
  match fetch_api self with
  | ApiNone => no_attribute "get_ecephys_session"
  | ApiCloud a => fetch_with (Api.get_ecephys_session a ecephys_session_id)
  | ApiOther o => fetch_with (other_get_ecephys_session o ecephys_session_id)
  end.

Definition get_behavior_session_with (self : t) (behavior_session_id : Z)
  : M Session :=
  match fetch_api self with
  | ApiNone => no_attribute "get_behavior_session"
  | ApiCloud a => fetch_with (Api.get_behavior_session a behavior_session_id)
  | ApiOther o => fetch_with (other_get_behavior_session o behavior_session_id)
  end.

End SessionFetch.

Definition get_ecephys_session : t -> Z -> M Session :=
  get_ecephys_session_with call_caching.

Definition get_behavior_session : t -> Z -> M Session :=
  get_behavior_session_with call_caching.

End VisualBehaviorEcephysProjectCache.

Module Api := BehaviorEcephysProjectCloudApi.
Module Facade := VisualBehaviorEcephysProjectCache.

(** ** Concrete caches and worlds

    Modelled from the spec: a cache in the sense of its sections 4.1 and 4.3.
    A manifest is loaded by name from a fixed registry ([ManifestNotFound]
    for an unknown name); a key resolves to a path under the cache
    directory; [exists] is recomputed from local storage on each resolution;
    a cloud-backed cache downloads an absent file from the remote store, a
    local-only one never does.  [outage] is the number of remote requests
    that fail before the remote store answers. *)

Module Fixture.

Record Backing : Type := {
  registry : list (string * Manifest);
  remote : gmap string File;
  outage : nat
}.

Definition metadata_file (fname : string) : string :=
  "/cache/" +:+ fname +:+ ".csv".
Definition data_file (file_id : string) : string :=
  "/cache/" +:+ file_id +:+ ".nwb".

Definition resolve (path : string) (w : World) : result CacheEntry :=
  Ok {| exists_ := bool_decide (is_Some (fs w !! path)); local_path := path |}.

Definition activate (m : Manifest) : M unit :=
  fun w => (Ok tt, {| fs := fs w; net_log := net_log w; _manifest := m;
                      attrs := attrs w |}).

Fixpoint find_manifest (name : string) (reg : list (string * Manifest))
  : option Manifest :=
  match reg with
  | [] => None
  | (n, m) :: rest => if String.eqb n name then Some m else find_manifest name rest
  end.

Definition load (b : Backing) (name : string) : M unit :=
  match find_manifest name (registry b) with
  | Some m => activate m
  | None => raise (ExternalError "ManifestNotFound" name)
  end.

Definition load_last (b : Backing) : M unit :=
  match last (registry b) with
  | Some (_, m) => activate m
  | None => raise (ExternalError "ManifestNotFound" "no manifest")
  end.

Definition download (b : Backing) (path : string) : M string :=
  fun w =>
    if bool_decide (is_Some (fs w !! path)) then (Ok path, w)
    else
      let requested files :=
        {| fs := files; net_log := net_log w ++ [path];
           _manifest := _manifest w; attrs := attrs w |} in
      if (List.length (net_log w) <? outage b)%nat then
        (Raise (ExternalError "S3CloudCache" ("could not download " +:+ path)),
         requested (fs w))
      else
        match remote b !! path with
        | Some file => (Ok path, requested (<[path := file]> (fs w)))
        | None =>
            (Raise (ExternalError "S3CloudCache" ("no remote object " +:+ path)),
             requested (fs w))
        end.

Definition no_download (path : string) : M string :=
  raise (NotImplementedError "a local cache does not download").

Definition cache_of (class_name : string) (cloud : bool) (b : Backing)
  : CloudCache.t :=
  {| CloudCache.class_name := class_name;
     CloudCache.file_id_column := "file_id";
     CloudCache.load_manifest := load b;
     CloudCache.load_last_manifest := load_last b;
     CloudCache.metadata_path := fun fname => resolve (metadata_file fname);
     CloudCache.data_path := fun file_id => resolve (data_file file_id);
     CloudCache.download_metadata :=
       fun fname => if cloud then download b (metadata_file fname)
                    else no_download (metadata_file fname);
     CloudCache.download_data :=
       fun file_id => if cloud then download b (data_file file_id)
                      else no_download (data_file file_id);
     CloudCache.construct_local_manifest := ret tt;
     CloudCache.compare_manifests :=
       fun a b => ret ("Changes going from " +:+ a +:+ " to " +:+ b);
     CloudCache.load_latest_manifest := load_last b;
     CloudCache.latest_downloaded_manifest_file :=
       ret (default EmptyString (fst <$> last (registry b)));
     CloudCache.latest_manifest_file :=
       ret (default EmptyString (fst <$> last (registry b)));
     CloudCache.list_all_downloaded_manifests := ret (map fst (registry b));
     CloudCache.manifest_file_names := ret (map fst (registry b));
     CloudCache.current_manifest := ret (fst <$> last (registry b)) |}.

Definition manifest_with (names : list string) (version : string) : Manifest :=
  {| metadata_file_names := Some names;
     version := version;
     _data_pipeline :=
       [ {[ "name" := "AllenSDK"; "version" := "2.13.4" ]} ] |}.

Definition five : list string :=
  ["behavior_sessions"; "sessions"; "probes"; "units"; "channels"].

(** Local storage in which behavior session 5 belongs to ecephys session
    10, whose file is 99; the behavior-sessions file has a [mouse_id] column
    besides the two identifiers. *)
Definition files : gmap string File :=
  {[ metadata_file "sessions" :=
       CsvFile ["ecephys_session_id"; "file_id"] [[Some 10; Some 99]];
     metadata_file "behavior_sessions" :=
       CsvFile ["behavior_session_id"; "ecephys_session_id"; "mouse_id"]
               [[Some 5; Some 10; Some 7]];
     metadata_file "probes" := CsvFile ["ecephys_probe_id"] [[Some 1]];
     metadata_file "units" := CsvFile ["unit_id"] [[Some 1]];
     metadata_file "channels" := CsvFile ["ecephys_channel_id"] [[Some 1]];
     data_file "99" := NwbFile "session 10" ]}.

Definition backing (names : list string) (version : string) : Backing :=
  {| registry := [("manifest_v1.json", manifest_with names version)];
     remote := files; outage := 0 |}.

Definition blank : Manifest :=
  {| metadata_file_names := None; version := EmptyString;
     _data_pipeline := [] |}.

Definition world (files : gmap string File) : World :=
  {| fs := files; net_log := []; _manifest := blank; attrs := ∅ |}.

Definition local_api (names : list string) (version : string) : Api.t :=
  {| Api.cache := cache_of "LocalCache" false (backing names version);
     Api.skip_version_check := false; Api._local := true |}.

Definition cloud_api (b : Backing) : Api.t :=
  {| Api.cache := cache_of "S3CloudCache" true b;
     Api.skip_version_check := false; Api._local := false |}.

(** The world once the cache has made the manifest active, and once the
    fetch API has read its tables. *)
Definition activated (names : list string) (version : string) : World :=
  {| fs := files; net_log := []; _manifest := manifest_with names version;
     attrs := ∅ |}.

Definition started : World :=
  (Api.load_manifest (local_api five "0.5.0") None (world files)).2.

Definition one_row (index : string) : DataFrame :=
  {| index_name := Some index; columns := []; rows := [(Some 1, [])] |}.

(** A sessions table in which ecephys session 10 has two rows. *)
Definition duplicated : World :=
  {| fs := files; net_log := []; _manifest := manifest_with five "0.5.0";
     attrs :=
       {[ "_ecephys_session_table" :=
            {| index_name := Some "ecephys_session_id";
               columns := ["file_id"];
               rows := [(Some 10, [Some 99]); (Some 10, [Some 99])] |};
          "_behavior_session_table" :=
            {| index_name := Some "behavior_session_id";
               columns := ["ecephys_session_id"; "mouse_id"];
               rows := [(Some 5, [Some 10; Some 7])] |} ]} |}.

Definition min_api : Api.t := local_api five "0.1.0".
Definition max_api : Api.t := local_api five "1.0.0".

Definition no_channels : list string :=
  ["behavior_sessions"; "sessions"; "probes"; "units"].
Definition extra_table : list string := five ++ ["extra_table"].

Definition no_row (df : DataFrame) : DataFrame :=
  {| index_name := index_name df; columns := columns df; rows := [] |}.

(** A local-only fetch API and a cloud-backed one over the same manifest. *)
Definition local : Api.t := local_api five "0.5.0".
Definition cloud : Api.t := cloud_api (backing five "0.5.0").

Definition nothing_on_disk : World := world ∅.

Definition no_api_facade : Facade.t := Facade.__init__ None None.

(** A facade over a local-only cache, as [from_local_cache] builds it. *)
Definition local_cache : CloudCache.t :=
  cache_of "LocalCache" false (backing five "0.5.0").

Definition local_facade : Facade.t :=
  {| Facade.fetch_api := ApiCloud (local_api five "0.5.0");
     Facade.fetch_tries := 2 |}.

(** A cloud-backed facade with the default [fetch_tries], the tables on
    disk, the session file only in the remote store, and a remote store
    whose first request fails. *)
Definition flaky : Backing :=
  {| registry := [("manifest_v1.json", manifest_with five "0.5.0")];
     remote := files; outage := 1 |}.

Definition flaky_facade : Facade.t :=
  Facade.__init__ (Some (ApiCloud (cloud_api flaky))) None.

Definition tables_only : gmap string File := delete (data_file "99") files.

End Fixture.


(** ** [probes.py]: [Probes.from_json] *)

Module Probes.

(** [[f(x) for x in xs]] for an [f] that can raise: the first failure ends
    the comprehension. *)
Fixpoint comprehension {A B} (f : A -> result B) (xs : list A)
  : result (list B) :=
  match xs with
  | [] => Ok []
  | x :: rest =>
      match f x with
      | Raise e => Raise e
      | Ok y =>
          match comprehension f rest with
          | Raise e => Raise e
          | Ok ys => Ok (y :: ys)
          end
      end
  end.

(** [p['name']] on a probe given as a dictionary with string values. *)
Definition name (p : gmap string string) : result string :=
  match p !! "name" with
  | Some n => Ok n
  | None => Raise (KeyError "name")
  end.

(** The key of a probe whose name has been read before. *)
Definition key (p : gmap string string) : string :=
  default EmptyString (p !! "name").

(** [sorted(probes, key=lambda probe: probe['name'])]: Python's sort is
    stable and compares keys with [<]; strings are ordered by code point,
    which is the order of their UTF-8 bytes. *)
Fixpoint insert_by_name (p : gmap string string)
    (sorted : list (gmap string string)) : list (gmap string string) :=
  match sorted with
  | [] => [p]
  | q :: rest =>
      if String.ltb (key q) (key p) then q :: insert_by_name p rest
      else p :: q :: rest
  end.

Definition sorted_by_name (probes : list (gmap string string))
  : list (gmap string string) :=
  fold_right insert_by_name [] probes.

Section FromJson.

(** [Probe] and [Probe.from_json] are defined in
    [allensdk.brain_observatory.ecephys._probe], outside these sources. *)
Variable Probe : Type.
Variable Probe_from_json : gmap string string -> result Probe.

Definition from_json (probes : list (gmap string string))
    (skip_probes : option (list string)) : result (list Probe) :=
  let skip_probes := default [] skip_probes in
  match comprehension name probes with
  | Raise e => Raise e
  | Ok names =>
      let invalid_skip_probes : gset string :=
        list_to_set skip_probes ∖ list_to_set names in
      if bool_decide (invalid_skip_probes <> ∅) then
        Raise (ValueError
                 ("You passed invalid probes to skip: "
                  +:+ Api.set_repr invalid_skip_probes +:+ " "
                  +:+ "are not valid probe names"))
      else
        let probes :=
          List.filter (fun p => negb (bool_decide (key p ∈ skip_probes)))
                      probes in
        let probes := sorted_by_name probes in
        comprehension Probe_from_json probes
  end.

End FromJson.

End Probes.

(** ** [vbn_running_speed.py]: [VBNRunningSpeed] *)

Module VBNRunningSpeed.

(** A floating-point number is carried around here, never computed with:
    it is known by its literal. *)
Record float : Type := { literal : string }.

(** The values of the dictionaries read and written here. *)
Inductive Json : Type :=
| JNone
| JBool (b : bool)
| JStr (s : string)
| JFloat (x : float).

(** A data frame of running speed: rows of [timestamps] and [speed]. *)
Definition RunningSpeed : Type := list (float * float).

Record t : Type := {
  value : RunningSpeed;
  _sync_file : Json;
  _behavior_stimulus_file : Json;
  _replay_stimulus_file : Json;
  _mapping_stimulus_file : Json;
  _use_lowpass_filter : Json;
  _zscore_threshold : Json;
  _filtered : Json
}.

Definition __init__ (running_speed : RunningSpeed)
    (sync_file behavior_stimulus_file replay_stimulus_file
       mapping_stimulus_file use_lowpass_filter zscore_threshold
       filtered : option Json) : t :=
  {| value := running_speed;
     _sync_file := default JNone sync_file;
     _behavior_stimulus_file := default JNone behavior_stimulus_file;
     _replay_stimulus_file := default JNone replay_stimulus_file;
     _mapping_stimulus_file := default JNone mapping_stimulus_file;
     _use_lowpass_filter := default (JBool true) use_lowpass_filter;
     _zscore_threshold :=
       default (JFloat {| literal := "10.0" |}) zscore_threshold;
     _filtered := default (JBool false) filtered |}.

(** [dict_repr[key]] *)
Definition item (dict_repr : gmap string Json) (key : string) : result Json :=
  match dict_repr !! key with
  | Some v => Ok v
  | None => Raise (KeyError key)
  end.

Section FromJson.

(** [multi_stim_running_df_from_raw_data] is defined in
    [multi_stim_running_processing], outside these sources; of what it
    returns only the frame times and velocities are used. *)
Variable multi_stim_running_df_from_raw_data :
  forall (sync_path behavior_pkl_path mapping_pkl_path replay_pkl_path
            use_lowpass_filter zscore_threshold : Json)
         (behavior_start_frame : Z), result (list (float * float)).

Definition _get_multi_stim_running_df
    (sync_file behavior_stimulus_file mapping_stimulus_file
       replay_stimulus_file use_lowpass_filter zscore_threshold : Json)
  : result RunningSpeed :=
  multi_stim_running_df_from_raw_data sync_file behavior_stimulus_file
    mapping_stimulus_file replay_stimulus_file use_lowpass_filter
    zscore_threshold 0.

Definition from_json (dict_repr : gmap string Json) : result t :=
  match item dict_repr "behavior_stimulus_file" with
  | Raise e => Raise e
  | Ok behavior_stimulus_file =>
  match item dict_repr "replay_stimulus_file" with
  | Raise e => Raise e
  | Ok replay_stimulus_file =>
  match item dict_repr "mapping_stimulus_file" with
  | Raise e => Raise e
  | Ok mapping_stimulus_file =>
  match item dict_repr "sync_file" with
  | Raise e => Raise e
  | Ok sync_file =>
      let use_lowpass_filter :=
        default (JBool true) (dict_repr !! "use_lowpass_filter") in
      let zscore_threshold :=
        default (JFloat {| literal := "10.0" |})
                (dict_repr !! "zscore_threshold") in
      match _get_multi_stim_running_df sync_file behavior_stimulus_file
              mapping_stimulus_file replay_stimulus_file use_lowpass_filter
              zscore_threshold with
      | Raise e => Raise e
      | Ok df =>
          Ok (__init__ df (Some sync_file) (Some behavior_stimulus_file)
                (Some replay_stimulus_file) (Some mapping_stimulus_file)
                (Some use_lowpass_filter) (Some zscore_threshold) None)
      end
  end end end end.

End FromJson.

(** The loop of [to_json] over the four files: the message grows by one
    sentence for each file that is [None], and every value is written. *)
Fixpoint to_json_files (files : list (Json * string)) (msg : string)
    (output : gmap string Json) : string * gmap string Json :=
  match files with
  | [] => (msg, output)
  | (value, key) :: rest =>
      let msg :=
        match value with
        | JNone =>
            msg +:+ (key +:+ " is None; must be specified "
                     +:+ "for VBNRunningSpeed.to_json")
        | _ => msg
        end in
      to_json_files rest msg (<[key := value]> output)
  end.

Definition to_json (self : t) : result (gmap string Json) :=
  let '(msg, output) :=
    to_json_files [(_sync_file self, "sync_file");
                   (_behavior_stimulus_file self, "behavior_stimulus_file");
                   (_mapping_stimulus_file self, "mapping_stimulus_file");
                   (_replay_stimulus_file self, "replay_stimulus_file")]
                  EmptyString ∅ in
  if (0 <? String.length msg)%nat then Raise (RuntimeError msg)
  else
    let output := <["use_lowpass_filter" := _use_lowpass_filter self]> output in
    let output := <["zscore_threshold" := _zscore_threshold self]> output in
    let output := <["filtered" := _filtered self]> output in
    Ok output.

Definition from_lims : result t := Raise (NotImplementedError EmptyString).

End VBNRunningSpeed.

(** ** Vocabulary of the statements *)

Definition cmin : string := nth 0 MANIFEST_COMPATIBILITY EmptyString.
Definition cmax : string := nth 1 MANIFEST_COMPATIBILITY EmptyString.

Definition release (major minor patch : N) : Semver.VersionInfo :=
  {| Semver.major := major; Semver.minor := minor; Semver.patch := patch;
     Semver.prerelease := None; Semver.build := None |}.

Definition vmin : Semver.VersionInfo := release 0 1 0.
Definition vmax : Semver.VersionInfo := release 1 0 0.

(** [min <= v < max] *)
Definition in_window (v : Semver.VersionInfo) : Prop :=
  Semver.le vmin v = true /\ Semver.lt v vmax = true.

(** The first statement of [load_manifest]: the cache loads the named
    manifest, or the last one. *)
Definition cache_load (self : Api.t) (manifest_name : option string) : M unit :=
  match manifest_name with
  | None => CloudCache.load_last_manifest (Api.cache self)
  | Some name => CloudCache.load_manifest (Api.cache self) name
  end.

(** The version-mismatch error: it carries the declared version and the
    expected range. *)
Definition version_mismatch (r : result unit) (declared : string) : Prop :=
  exists msg,
    r = Raise (BehaviorCloudCacheVersionException msg)
    /\ occurs_in declared msg
    /\ occurs_in (cmin +:+ " <= X < " +:+ cmax) msg.

(** The invalid-manifest error of [load_manifest]. *)
Definition invalid_manifest (r : result unit) : Prop :=
  exists msg,
    r = Raise (RuntimeError msg)
    /\ occurs_in "expected S3CloudCache object to have metadata file names"
                 msg.

(** The integrity error of a session lookup: a [RuntimeError] that asks
    for one and only one entry and reports the identifier and the number of
    rows found. *)
Definition integrity_error (r : result Session) (id : Z) (count : nat)
  : Prop :=
  exists msg,
    r = Raise (RuntimeError msg)
    /\ occurs_in "1 and only 1 entry for a given" msg
    /\ occurs_in ("For " +:+ pretty id) msg
    /\ occurs_in ("there are " +:+ pretty count +:+ " entries.") msg.

(** Tables as the fetch API holds them, in which behavior session 5 belongs
    to ecephys session 10, whose file is 99.  The behavior-session table is
    wider than the one of the scenario of [get_behavior_session]: besides
    [ecephys_session_id] it has a [mouse_id] column, as the released tables
    have further columns.  The sessions table is the one of the scenario. *)
Definition wide_behavior_sessions : DataFrame :=
  {| index_name := Some "behavior_session_id";
     columns := ["ecephys_session_id"; "mouse_id"];
     rows := [(Some 5, [Some 10; Some 7])] |}.

Definition scenario_sessions : DataFrame :=
  {| index_name := Some "ecephys_session_id";
     columns := ["file_id"];
     rows := [(Some 10, [Some 99])] |}.

(** The error of a local-only cache for a file that is not on disk: a
    [FileNotFoundError] whose message names the expected local path. *)
Definition missing_locally {A} (r : result A) (path : string) : Prop :=
  exists msg, r = Raise (FileNotFoundError msg) /\ occurs_in path msg.

(** What [_get_local_path] does with the answer of the cache. *)
Definition path_lookup (answer : result CacheEntry) (w : World)
  : result string * World :=
  match answer with
  | Raise e => (Raise e, w)
  | Ok entry =>
      if exists_ entry then (Ok (local_path entry), w)
      else (Raise (FileNotFoundError
                     ("You started a cache without a connection to s3 and "
                      +:+ local_path entry
                      +:+ " is not already on your system")), w)
  end.

(** A [NotImplementedError] whose message names the method and the type
    of the backend. *)
Definition not_implemented {A} (r : result A) (method backend : string)
  : Prop :=
  exists msg,
    r = Raise (NotImplementedError msg)
    /\ occurs_in method msg /\ occurs_in backend msg.

(** The fetch API over the same cache with other download methods. *)
Definition with_downloads (self : Api.t)
    (download_metadata download_data : string -> M string) : Api.t :=
  let cache := Api.cache self in
  {| Api.cache :=
       {| CloudCache.class_name := CloudCache.class_name cache;
          CloudCache.file_id_column := CloudCache.file_id_column cache;
          CloudCache.load_manifest := CloudCache.load_manifest cache;
          CloudCache.load_last_manifest := CloudCache.load_last_manifest cache;
          CloudCache.metadata_path := CloudCache.metadata_path cache;
          CloudCache.data_path := CloudCache.data_path cache;
          CloudCache.download_metadata := download_metadata;
          CloudCache.download_data := download_data;
          CloudCache.construct_local_manifest :=
            CloudCache.construct_local_manifest cache;
          CloudCache.compare_manifests := CloudCache.compare_manifests cache;
          CloudCache.load_latest_manifest :=
            CloudCache.load_latest_manifest cache;
          CloudCache.latest_downloaded_manifest_file :=
            CloudCache.latest_downloaded_manifest_file cache;
          CloudCache.latest_manifest_file :=
            CloudCache.latest_manifest_file cache;
          CloudCache.list_all_downloaded_manifests :=
            CloudCache.list_all_downloaded_manifests cache;
          CloudCache.manifest_file_names := CloudCache.manifest_file_names cache;
          CloudCache.current_manifest := CloudCache.current_manifest cache |};
     Api.skip_version_check := Api.skip_version_check self;
     Api._local := Api._local self |}.

(** The message [version_check] raises with, for the default range. *)
Definition estr (manifest_version data_pipeline_version : string) : string :=
  "the manifest has manifest_version " +:+ manifest_version +:+ " but "
  +:+ "this version of AllenSDK is compatible only with manifest "
  +:+ "versions " +:+ cmin +:+ " <= X < " +:+ cmax +:+ ". " +:+ nl
  +:+ "Consider using a version of AllenSDK closer to the version "
  +:+ "used to release the data: " +:+ data_pipeline_version.

(** The accepted versions: [0.Y.Z] from [0.1.0] on, without the
    prereleases of [0.1.0], and the prereleases of [1.0.0].  Build metadata
    plays no part. *)
Definition accepted (v : Semver.VersionInfo) : Prop :=
  (Semver.major v = 0%N
   /\ ((2 <= Semver.minor v)%N
       \/ (Semver.minor v = 1%N
           /\ ((1 <= Semver.patch v)%N
               \/ Semver.is_empty (Semver.prerelease v) = true))))
  \/ (Semver.major v = 1%N /\ Semver.minor v = 0%N /\ Semver.patch v = 0%N
      /\ Semver.is_empty (Semver.prerelease v) = false).

(** The table attributes of the fetch API, with the column each table is
    indexed by, in the order [load_manifest] assigns them. *)
Definition table_attributes : list (string * string) :=
  [("_ecephys_session_table", "ecephys_session_id");
   ("_behavior_session_table", "behavior_session_id");
   ("_unit_table", "unit_id");
   ("_probe_table", "ecephys_probe_id");
   ("_channel_table", "ecephys_channel_id")].

(** The world after [self.<attr> = df]. *)
Definition assigned (attr : string) (df : DataFrame) (w : World) : World :=
  {| fs := fs w; net_log := net_log w; _manifest := _manifest w;
     attrs := <[attr := df]> (attrs w) |}.

(** What [pd.read_csv] makes of a file. *)
Definition frame_of (header : list string) (records : list (list cell))
  : DataFrame :=
  {| index_name := None; columns := header;
     rows := Pandas.range_index 0 records |}.

(** [p] comes no later than [q] in the order of probe names. *)
Definition name_le (p q : gmap string string) : Prop :=
  String.leb (Probes.key p) (Probes.key q) = true.

(** The probes with a given name, in the order of the list. *)
Definition named (k : string) (probes : list (gmap string string))
  : list (gmap string string) :=
  List.filter (fun p => String.eqb (Probes.key p) k) probes.

(** The probes that are not skipped, in the order of the list. *)
Definition not_skipped (skip : list string)
    (probes : list (gmap string string)) : list (gmap string string) :=
  List.filter (fun p => negb (bool_decide (Probes.key p ∈ skip))) probes.

(** The four files of a [VBNRunningSpeed], as [to_json] goes through
    them, and the sentence it writes for a file that is [None]. *)
Definition files_of (self : VBNRunningSpeed.t)
  : list (VBNRunningSpeed.Json * string) :=
  [(VBNRunningSpeed._sync_file self, "sync_file");
   (VBNRunningSpeed._behavior_stimulus_file self, "behavior_stimulus_file");
   (VBNRunningSpeed._mapping_stimulus_file self, "mapping_stimulus_file");
   (VBNRunningSpeed._replay_stimulus_file self, "replay_stimulus_file")].

Definition complaint (key : string) : string :=
  key +:+ " is None; must be specified for VBNRunningSpeed.to_json".

Fixpoint complaints (files : list (VBNRunningSpeed.Json * string)) : string :=
  match files with
  | [] => EmptyString
  | (VBNRunningSpeed.JNone, key) :: rest => complaint key +:+ complaints rest
  | _ :: rest => complaints rest
  end.

Definition file_keys : list string :=
  ["sync_file"; "behavior_stimulus_file"; "mapping_stimulus_file";
   "replay_stimulus_file"].

(** The dictionary [to_json] writes when no file is [None]. *)
Definition written (self : VBNRunningSpeed.t)
  : gmap string VBNRunningSpeed.Json :=
  <["filtered" := VBNRunningSpeed._filtered self]>
    (<["zscore_threshold" := VBNRunningSpeed._zscore_threshold self]>
       (<["use_lowpass_filter" := VBNRunningSpeed._use_lowpass_filter self]>
          (<["replay_stimulus_file" :=
               VBNRunningSpeed._replay_stimulus_file self]>
             (<["mapping_stimulus_file" :=
                  VBNRunningSpeed._mapping_stimulus_file self]>
                (<["behavior_stimulus_file" :=
                     VBNRunningSpeed._behavior_stimulus_file self]>
                   (<["sync_file" := VBNRunningSpeed._sync_file self]> ∅)))))).

(** ** Further concrete inputs *)

Module Sample.

Definition pipeline : list (gmap string string) :=
  [ {[ "name" := "pynwb"; "version" := "2.2.0" ]};
    {[ "name" := "AllenSDK"; "version" := "2.13.4" ]};
    {[ "name" := "AllenSDK"; "version" := "1.0.0" ]} ].

(** A local-only fetch API that skips the version check, over a manifest
    whose version is no semantic version. *)
Definition skipping : Api.t :=
  {| Api.cache :=
       Fixture.cache_of "LocalCache" false
         (Fixture.backing Fixture.five "release-2");
     Api.skip_version_check := true; Api._local := true |}.

(** A manifest whose data pipeline does not name AllenSDK. *)
Definition unnamed_sdk : Manifest :=
  {| metadata_file_names := Some Fixture.five;
     version := "0.5.0";
     _data_pipeline := [ {[ "name" := "pynwb"; "version" := "2.2.0" ]} ] |}.

Definition unnamed_sdk_api : Api.t :=
  {| Api.cache :=
       Fixture.cache_of "LocalCache" false
         {| Fixture.registry := [("manifest_v1.json", unnamed_sdk)];
            Fixture.remote := Fixture.files; Fixture.outage := 0 |};
     Api.skip_version_check := false; Api._local := true |}.

Definition unnamed_sdk_loaded : World :=
  {| fs := Fixture.files; net_log := []; _manifest := unnamed_sdk;
     attrs := ∅ |}.

Definition release_candidate : Semver.VersionInfo :=
  {| Semver.major := 1; Semver.minor := 0; Semver.patch := 0;
     Semver.prerelease := Some "rc.1"; Semver.build := None |}.

(** The behavior-session table of the scenario of [get_behavior_session]:
    [ecephys_session_id] is its only column. *)
Definition narrow_behavior_sessions : DataFrame :=
  {| index_name := Some "behavior_session_id";
     columns := ["ecephys_session_id"];
     rows := [(Some 5, [Some 10])] |}.

Definition narrow : World :=
  {| fs := Fixture.files; net_log := [];
     _manifest := Fixture.manifest_with Fixture.five "0.5.0";
     attrs := {[ "_behavior_session_table" := narrow_behavior_sessions;
                 "_ecephys_session_table" := scenario_sessions ]} |}.

(** Local storage with the two tables of the scenario, as files: the
    behavior-sessions file has the two fields [behavior_session_id] and
    [ecephys_session_id], the sessions file the two fields
    [ecephys_session_id] and [file_id].  [scenario_started] is the world
    once a local-only fetch API has loaded its manifest over them. *)
Definition scenario_files : gmap string File :=
  {[ Fixture.metadata_file "sessions" :=
       CsvFile ["ecephys_session_id"; "file_id"] [[Some 10; Some 99]];
     Fixture.metadata_file "behavior_sessions" :=
       CsvFile ["behavior_session_id"; "ecephys_session_id"]
               [[Some 5; Some 10]];
     Fixture.metadata_file "probes" := CsvFile ["ecephys_probe_id"] [[Some 1]];
     Fixture.metadata_file "units" := CsvFile ["unit_id"] [[Some 1]];
     Fixture.metadata_file "channels" :=
       CsvFile ["ecephys_channel_id"] [[Some 1]];
     Fixture.data_file "99" := NwbFile "session 10" ]}.

Definition scenario_started : World :=
  (Api.load_manifest Fixture.local None (Fixture.world scenario_files)).2.

Definition duplicated_sessions : DataFrame :=
  {| index_name := Some "ecephys_session_id";
     columns := ["file_id"];
     rows := [(Some 10, [Some 99]); (Some 10, [Some 99])] |}.

(** Local storage with the sessions table and nothing else. *)
Definition sessions_only : World :=
  {| fs := {[ Fixture.metadata_file "sessions" :=
                CsvFile ["ecephys_session_id"; "file_id"]
                        [[Some 10; Some 99]] ]};
     net_log := [];
     _manifest := Fixture.manifest_with Fixture.five "0.5.0";
     attrs := ∅ |}.

Definition too_new : CloudCache.t :=
  Fixture.cache_of "LocalCache" false (Fixture.backing Fixture.five "1.0.0").

Definition probes : list (gmap string string) :=
  [ {[ "name" := "probeB"; "id" := "2" ]};
    {[ "name" := "probeC"; "id" := "3" ]};
    {[ "name" := "probeA"; "id" := "1" ]} ].

Definition probe_id (p : gmap string string) : result string :=
  match p !! "id" with
  | Some i => Ok i
  | None => Raise (KeyError "id")
  end.

Definition no_running : VBNRunningSpeed.Json -> VBNRunningSpeed.Json
    -> VBNRunningSpeed.Json -> VBNRunningSpeed.Json -> VBNRunningSpeed.Json
    -> VBNRunningSpeed.Json -> Z
    -> result (list (VBNRunningSpeed.float * VBNRunningSpeed.float)) :=
  fun _ _ _ _ _ _ _ => Ok [].

Definition running_json : gmap string VBNRunningSpeed.Json :=
  {[ "sync_file" := VBNRunningSpeed.JStr "sync.h5";
     "behavior_stimulus_file" := VBNRunningSpeed.JStr "behavior.pkl";
     "mapping_stimulus_file" := VBNRunningSpeed.JStr "mapping.pkl";
     "replay_stimulus_file" := VBNRunningSpeed.JStr "replay.pkl";
     "use_lowpass_filter" := VBNRunningSpeed.JBool false;
     "session" := VBNRunningSpeed.JStr "1044385384" ]}.

Definition running : VBNRunningSpeed.t :=
  VBNRunningSpeed.__init__ []
    (Some (VBNRunningSpeed.JStr "sync.h5"))
    (Some (VBNRunningSpeed.JStr "behavior.pkl"))
    (Some (VBNRunningSpeed.JStr "replay.pkl"))
    (Some (VBNRunningSpeed.JStr "mapping.pkl"))
    (Some (VBNRunningSpeed.JBool false)) None None.

Definition filtered_running : VBNRunningSpeed.t :=
  VBNRunningSpeed.__init__ []
    (Some (VBNRunningSpeed.JStr "sync.h5"))
    (Some (VBNRunningSpeed.JStr "behavior.pkl"))
    (Some (VBNRunningSpeed.JStr "replay.pkl"))
    (Some (VBNRunningSpeed.JStr "mapping.pkl"))
    None None (Some (VBNRunningSpeed.JBool true)).

End Sample.

(** * Properties *)

(** ** Strings and the monad *)

Lemma append_assoc (a b c : string) : (a +:+ b) +:+ c = a +:+ b +:+ c.
Proof.
  induction a as [|x a IH]; [reflexivity |].
  change (String x ((a +:+ b) +:+ c) = String x (a +:+ b +:+ c)).
  now f_equal.
Qed.

Lemma occurs_in_mid (pre sub post : string) :
  occurs_in sub (pre +:+ sub +:+ post).
Proof. now exists pre, post. Qed.

Lemma occurs_in_prefix (a sub s : string) :
  occurs_in sub s -> occurs_in sub (a +:+ s).
Proof.
  intros (pre & post & ->). exists (a +:+ pre), post.
  now rewrite append_assoc.
Qed.

Lemma occurs_in_head (sub post : string) : occurs_in sub (sub +:+ post).
Proof. now exists EmptyString, post. Qed.

Lemma occurs_in_refl (s : string) : occurs_in s s.
Proof.
  exists EmptyString, EmptyString.
  change (s = s +:+ EmptyString).
  induction s as [|x s IH]; [reflexivity |].
  change (String x s = String x (s +:+ EmptyString)). now f_equal.
Qed.

Lemma bind_ok {A B} (c : M A) (k : A -> M B) (w w' : World) (a : A) :
  c w = (Ok a, w') -> (x <- c ;; k x) w = k a w'.
Proof. unfold bind. now intros ->. Qed.

Lemma getattr_some (name : string) (df : DataFrame) (w : World) :
  attrs w !! name = Some df -> getattr name w = (Ok df, w).
Proof. unfold getattr. now intros ->. Qed.

(** ** Version order *)

Module SemverFacts.
Import Semver.

Lemma cmp_prerelease_tag_antisym (a b : tag) :
  cmp_prerelease_tag a b = CompOpp (cmp_prerelease_tag b a).
Proof.
  destruct a, b; simpl; try reflexivity.
  - apply N.compare_antisym.
  - apply String.compare_antisym.
Qed.

Lemma cmp_parts_antisym (xs ys : list tag) (c : comparison) :
  cmp_parts xs ys c = CompOpp (cmp_parts ys xs (CompOpp c)).
Proof.
  revert ys. induction xs as [|x xs IH]; intros [|y ys]; simpl;
    try (now destruct c).
  rewrite (cmp_prerelease_tag_antisym x y).
  destruct (cmp_prerelease_tag y x); simpl; auto.
Qed.

Lemma _nat_cmp_antisym (a b : option string) :
  _nat_cmp a b = CompOpp (_nat_cmp b a).
Proof.
  unfold _nat_cmp. rewrite cmp_parts_antisym. do 2 f_equal.
  rewrite Nat.compare_antisym. now destruct (_ ?= _)%nat.
Qed.

Lemma _nat_cmp_empty (a b : option string) :
  is_empty a = true -> is_empty b = true -> _nat_cmp a b = Eq.
Proof.
  destruct a as [[|]|], b as [[|]|]; simpl; try discriminate; reflexivity.
Qed.

Lemma cmp3_antisym (v1 v2 : N * N * N) : cmp3 v1 v2 = CompOpp (cmp3 v2 v1).
Proof.
  destruct v1 as [[a1 b1] c1], v2 as [[a2 b2] c2]. simpl.
  rewrite (N.compare_antisym a2 a1), (N.compare_antisym b2 b1),
    (N.compare_antisym c2 c1).
  destruct (a2 ?= a1)%N, (b2 ?= b1)%N, (c2 ?= c1)%N; reflexivity.
Qed.

Lemma compare_antisym (a b : VersionInfo) :
  compare a b = CompOpp (compare b a).
Proof.
  unfold compare. rewrite (cmp3_antisym (major a, minor a, patch a)).
  destruct (cmp3 _ _); simpl; try reflexivity.
  rewrite (_nat_cmp_antisym (prerelease a)).
  destruct (is_empty (prerelease a)) eqn:Ea, (is_empty (prerelease b)) eqn:Eb.
  - now rewrite (_nat_cmp_empty _ _ Eb Ea).
  - now destruct (_nat_cmp _ _).
  - now destruct (_nat_cmp _ _).
  - now destruct (_nat_cmp _ _).
Qed.

(** [not (v < cmin)] is [cmin <= v]; [not (v >= cmax)] is [v < cmax]. *)
Lemma not_lt_le (v c : VersionInfo) : lt v c = false <-> le c v = true.
Proof.
  unfold lt, le. rewrite (compare_antisym c v).
  destruct (compare v c); simpl; intuition congruence.
Qed.

Lemma not_ge_lt (v c : VersionInfo) : ge v c = false <-> lt v c = true.
Proof. unfold lt, ge. destruct (compare v c); intuition congruence. Qed.

End SemverFacts.

(** ** Loading a manifest *)

Section LoadManifest.

Variables (self : Api.t) (name : option string) (w w1 : World).

(** What [load_manifest] does once the cache has made a manifest with a
    declared category list active: the two checks, then the tables. *)
Lemma load_manifest_loaded (names : list string) :
  cache_load self name w = (Ok tt, w1) ->
  metadata_file_names (_manifest w1) = Some names ->
  Api.load_manifest self name w
  = (if bool_decide ((list_to_set names : gset string) <> Api.expected_metadata)
     then raise (RuntimeError
                   ("expected S3CloudCache object to have "
                    +:+ "metadata file names: "
                    +:+ Api.set_repr Api.expected_metadata
                    +:+ " but it has " +:+ Api.set_repr (list_to_set names)))
     else
       _ <- (if negb (Api.skip_version_check self) then
               sdk <- lift (Api.data_sdk_version
                              (_data_pipeline (_manifest w1))) ;;
               lift (version_check (version (_manifest w1)) sdk cmin cmax)
             else ret tt) ;;
       Api._load_tables self) w1.
Proof.
  intros Hload Hnames. unfold Api.load_manifest.
  rewrite (bind_ok _ _ w w1 tt Hload).
  unfold bind at 1, ask. now rewrite Hnames.
Qed.

Lemma version_check_parsed (declared sdk : string) (v : Semver.VersionInfo) :
  Semver.parse declared = Ok v ->
  version_check declared sdk cmin cmax
  = if Semver.lt v vmin || Semver.ge v vmax
    then Raise (BehaviorCloudCacheVersionException (estr declared sdk))
    else Ok tt.
Proof. intros Hv. unfold version_check. rewrite Hv. reflexivity. Qed.

Lemma estr_carries (declared sdk : string) :
  occurs_in declared (estr declared sdk)
  /\ occurs_in (cmin +:+ " <= X < " +:+ cmax) (estr declared sdk).
Proof.
  split.
  - apply occurs_in_mid.
  - exists ("the manifest has manifest_version " +:+ declared +:+ " but "
            +:+ "this version of AllenSDK is compatible only with manifest "
            +:+ "versions "),
           (". " +:+ nl
            +:+ "Consider using a version of AllenSDK closer to the version "
            +:+ "used to release the data: " +:+ sdk).
    unfold estr. rewrite !append_assoc. reflexivity.
Qed.

Lemma window_check (v : Semver.VersionInfo) :
  Semver.lt v vmin || Semver.ge v vmax = false <-> in_window v.
Proof.
  unfold in_window.
  rewrite orb_false_iff, SemverFacts.not_lt_le, SemverFacts.not_ge_lt.
  reflexivity.
Qed.

Lemma at_min_in_window (v : Semver.VersionInfo) :
  Semver.compare v vmin = Eq -> in_window v.
Proof.
  intros H. split.
  - unfold Semver.le. rewrite SemverFacts.compare_antisym, H. reflexivity.
  - unfold Semver.lt. revert H. unfold Semver.compare. simpl.
    destruct (Semver.major v ?= 0)%N eqn:E; try discriminate.
    apply N.compare_eq in E. rewrite E. reflexivity.
Qed.

Lemma at_max_not_in_window (v : Semver.VersionInfo) :
  Semver.compare v vmax = Eq -> ~ in_window v.
Proof. intros H [_ Hlt]. unfold Semver.lt in Hlt. now rewrite H in Hlt. Qed.

(** With the version check on, a loaded manifest that passes the category
    check and names its AllenSDK release is compared with the window, and
    only inside it are the tables read. *)
Lemma load_manifest_checked (names : list string) (sdk : string)
    (v : Semver.VersionInfo) :
  Api.skip_version_check self = false ->
  cache_load self name w = (Ok tt, w1) ->
  metadata_file_names (_manifest w1) = Some names ->
  (list_to_set names : gset string) = Api.expected_metadata ->
  Api.data_sdk_version (_data_pipeline (_manifest w1)) = Ok sdk ->
  Semver.parse (version (_manifest w1)) = Ok v ->
  Api.load_manifest self name w
  = if Semver.lt v vmin || Semver.ge v vmax
    then (Raise (BehaviorCloudCacheVersionException
                   (estr (version (_manifest w1)) sdk)), w1)
    else Api._load_tables self w1.
Proof.
  intros Hskip Hload Hnames Hset Hsdk Hv.
  rewrite (load_manifest_loaded names Hload Hnames).
  rewrite bool_decide_eq_false_2 by (intros Hne; now apply Hne).
  rewrite Hskip. simpl negb. cbv iota.
  unfold bind at 1 2, lift at 1 2. rewrite Hsdk.
  rewrite (version_check_parsed _ sdk v Hv).
  now destruct (Semver.lt v vmin || Semver.ge v vmax).
Qed.

(** C1.  For a manifest the cache has loaded, that declares the five
    categories, names its AllenSDK release and declares the semantic
    version [v], and whose tables can be read: with the version check not
    skipped, [load_manifest] succeeds iff ["0.1.0" <= v < "1.0.0"].  A
    version equal to the minimum succeeds; one equal to the maximum, like
    every version outside the window, raises
    [BehaviorCloudCacheVersionException] with a message that carries the
    declared version and the range [0.1.0 <= X < 1.0.0]. *)
Theorem load_manifest_version_window (names : list string) (sdk : string)
    (v : Semver.VersionInfo) :
  Api.skip_version_check self = false ->
  cache_load self name w = (Ok tt, w1) ->
  metadata_file_names (_manifest w1) = Some names ->
  (list_to_set names : gset string) = Api.expected_metadata ->
  Api.data_sdk_version (_data_pipeline (_manifest w1)) = Ok sdk ->
  Semver.parse (version (_manifest w1)) = Ok v ->
  is_ok (Api._load_tables self w1).1 = true ->
  (is_ok (Api.load_manifest self name w).1 = true <-> in_window v)
  /\ (Semver.compare v vmin = Eq ->
      is_ok (Api.load_manifest self name w).1 = true)
  /\ (Semver.compare v vmax = Eq ->
      version_mismatch (Api.load_manifest self name w).1
                       (version (_manifest w1)))
  /\ (~ in_window v ->
      version_mismatch (Api.load_manifest self name w).1
                       (version (_manifest w1))).
Proof.
  intros Hskip Hload Hnames Hset Hsdk Hv Htables.
  rewrite (load_manifest_checked names sdk v Hskip Hload Hnames Hset Hsdk Hv).
  pose proof (window_check v) as Hgate.
  pose proof (@at_min_in_window v) as Hmin.
  pose proof (@at_max_not_in_window v) as Hmax.
  destruct (estr_carries (version (_manifest w1)) sdk) as [Hd Hr].
  destruct (Semver.lt v vmin || Semver.ge v vmax).
  - assert (Hnot : ~ in_window v) by (rewrite <- Hgate; discriminate).
    assert (Hm : version_mismatch
                   (Raise (BehaviorCloudCacheVersionException
                             (estr (version (_manifest w1)) sdk)))
                   (version (_manifest w1))) by (eexists; eauto).
    simpl. split; [split; [discriminate | tauto] |].
    split; [intros; exfalso; tauto |]. split; intros; exact Hm.
  - assert (Hin : in_window v) by now apply Hgate.
    cbv iota. split; [tauto |]. split; [tauto |].
    split; intros; exfalso; tauto.
Qed.

(** C2.  For a manifest the cache has loaded and that declares a category
    list, [load_manifest] succeeds only if the declared set is exactly
    [{behavior_sessions, sessions, probes, units, channels}]; with any other
    set, so with an expected category missing or with a category that is not
    expected, it raises the [RuntimeError] that reports the expected and the
    declared names. *)
Theorem load_manifest_exact_categories (names : list string) :
  cache_load self name w = (Ok tt, w1) ->
  metadata_file_names (_manifest w1) = Some names ->
  (is_ok (Api.load_manifest self name w).1 = true ->
   (list_to_set names : gset string)
   = {[ "behavior_sessions"; "sessions"; "probes"; "units"; "channels" ]})
  /\ ((list_to_set names : gset string) <> Api.expected_metadata ->
      invalid_manifest (Api.load_manifest self name w).1)
  /\ (forall c : string,
        c ∈ Api.expected_metadata -> c ∉ names ->
        invalid_manifest (Api.load_manifest self name w).1)
  /\ (forall c : string,
        c ∈ names -> c ∉ Api.expected_metadata ->
        invalid_manifest (Api.load_manifest self name w).1).
Proof.
  intros Hload Hnames.
  rewrite (load_manifest_loaded names Hload Hnames).
  assert (Hbad : (list_to_set names : gset string) <> Api.expected_metadata ->
                 invalid_manifest
                   ((if bool_decide ((list_to_set names : gset string)
                                     <> Api.expected_metadata)
                     then raise (RuntimeError
                            ("expected S3CloudCache object to have "
                             +:+ "metadata file names: "
                             +:+ Api.set_repr Api.expected_metadata
                             +:+ " but it has "
                             +:+ Api.set_repr (list_to_set names)))
                     else
                       _ <- (if negb (Api.skip_version_check self) then
                               sdk <- lift (Api.data_sdk_version
                                              (_data_pipeline (_manifest w1))) ;;
                               lift (version_check (version (_manifest w1))
                                                   sdk cmin cmax)
                             else ret tt) ;;
                       Api._load_tables self) w1).1).
  { intros Hne. rewrite bool_decide_eq_true_2 by exact Hne.
    eexists. split; [reflexivity |].
    exists EmptyString,
      (": " +:+ Api.set_repr Api.expected_metadata +:+ " but it has "
       +:+ Api.set_repr (list_to_set names)).
    reflexivity. }
  split; [| split; [exact Hbad | split]].
  - destruct (decide ((list_to_set names : gset string)
                      = Api.expected_metadata)) as [Heq | Hne].
    + intros _. rewrite Heq. unfold Api.expected_metadata. set_solver.
    + rewrite bool_decide_eq_true_2 by exact Hne. discriminate.
  - intros c Hin Hmiss. apply Hbad. intros Heq.
    rewrite <- Heq in Hin. apply elem_of_list_to_set in Hin. contradiction.
  - intros c Hin Hextra. apply Hbad. intros Heq.
    apply Hextra. rewrite <- Heq. apply elem_of_list_to_set, Hin.
Qed.

End LoadManifest.

(** ** Fetching a session *)

Section SessionLookup.

Variables (self : Api.t) (w : World).

Lemma get_ecephys_session_found (id : Z) (table row : DataFrame) :
  attrs w !! "_ecephys_session_table" = Some table ->
  Pandas.query_eq "index" id table = Ok row ->
  Api.get_ecephys_session self id w
  = if negb (Nat.eqb (Pandas.shape0 row) 1) then
      (Raise (RuntimeError
                ("The behavior_ecephys_session_table should "
                 +:+ "have 1 and only 1 entry for a given "
                 +:+ "ecephys_session_id. For " +:+ pretty id
                 +:+ "  there are " +:+ pretty (Pandas.shape0 row)
                 +:+ " entries.")), w)
    else
      (file_id <- lift (Api._file_id self row) ;;
       data_path <- Api._get_data_path self file_id ;;
       from_nwb_path BehaviorEcephysSession data_path) w.
Proof.
  intros Htable Hrow. unfold Api.get_ecephys_session.
  rewrite (bind_ok _ _ w w table (getattr_some _ _ _ Htable)).
  unfold bind at 1, lift at 1. rewrite Hrow.
  now destruct (negb _).
Qed.

Lemma get_behavior_session_found (id : Z) (table row : DataFrame) :
  attrs w !! "_behavior_session_table" = Some table ->
  Pandas.query_eq "behavior_session_id" id table = Ok row ->
  Pandas.shape0 row <> 1%nat ->
  Api.get_behavior_session self id w
  = (Raise (RuntimeError
              ("The behavior_session_table should have "
               +:+ "1 and only 1 entry for a given "
               +:+ "behavior_session_id. For " +:+ pretty id
               +:+ "  there are " +:+ pretty (Pandas.shape0 row)
               +:+ " entries.")), w).
Proof.
  intros Htable Hrow Hcount. unfold Api.get_behavior_session.
  rewrite (bind_ok _ _ w w table (getattr_some _ _ _ Htable)).
  unfold bind at 1, lift at 1. rewrite Hrow.
  unfold Pandas.shape0 in *.
  destruct (rows row) as [|[i vals] [|r rest]]; try reflexivity.
  now destruct Hcount.
Qed.

Lemma get_behavior_session_one (id : Z) (table row : DataFrame) :
  attrs w !! "_behavior_session_table" = Some table ->
  Pandas.query_eq "behavior_session_id" id table = Ok row ->
  is_ok (Api.get_behavior_session self id w).1 = true ->
  Pandas.shape0 row = 1%nat.
Proof.
  intros Htable Hrow Hok.
  destruct (decide (Pandas.shape0 row = 1%nat)) as [|Hne]; [assumption |].
  now rewrite (get_behavior_session_found id table row Htable Hrow Hne) in Hok.
Qed.

(** C3.  When the row lookup of [get_ecephys_session(id)] in the
    ecephys-session table, or that of [get_behavior_session(id)] in the
    behavior-session table, matches a number of rows other than one (none,
    or two and more), the call raises the integrity error, a [RuntimeError]
    reporting [id] and the number of rows, and changes nothing; a session
    object is returned only when exactly one row matches. *)
Theorem session_lookup_needs_one_row (id : Z)
    (sessions erow behavior brow : DataFrame) :
  attrs w !! "_ecephys_session_table" = Some sessions ->
  Pandas.query_eq "index" id sessions = Ok erow ->
  attrs w !! "_behavior_session_table" = Some behavior ->
  Pandas.query_eq "behavior_session_id" id behavior = Ok brow ->
  (Pandas.shape0 erow <> 1%nat ->
   integrity_error (Api.get_ecephys_session self id w).1 id
                   (Pandas.shape0 erow)
   /\ (Api.get_ecephys_session self id w).2 = w)
  /\ (is_ok (Api.get_ecephys_session self id w).1 = true ->
      Pandas.shape0 erow = 1%nat)
  /\ (Pandas.shape0 brow <> 1%nat ->
      integrity_error (Api.get_behavior_session self id w).1 id
                      (Pandas.shape0 brow)
      /\ (Api.get_behavior_session self id w).2 = w)
  /\ (is_ok (Api.get_behavior_session self id w).1 = true ->
      Pandas.shape0 brow = 1%nat).
Proof.
  intros He Hqe Hb Hqb.
  rewrite (get_ecephys_session_found id sessions erow He Hqe).
  split; [| split; [| split]].
  - intros Hne. apply Nat.eqb_neq in Hne. rewrite Hne. simpl.
    split; [| reflexivity]. eexists. split; [reflexivity |].
    split; [| split].
    + exists "The behavior_ecephys_session_table should have ",
        (" ecephys_session_id. For " +:+ pretty id +:+ "  there are "
         +:+ pretty (Pandas.shape0 erow) +:+ " entries.").
      reflexivity.
    + exists ("The behavior_ecephys_session_table should have 1 and only 1 "
              +:+ "entry for a given ecephys_session_id. "),
        ("  there are " +:+ pretty (Pandas.shape0 erow) +:+ " entries.").
      rewrite !append_assoc. reflexivity.
    + exists ("The behavior_ecephys_session_table should have 1 and only 1 "
              +:+ "entry for a given ecephys_session_id. For "
              +:+ pretty id +:+ "  "), EmptyString.
      rewrite !append_assoc. reflexivity.
  - destruct (Nat.eqb_spec (Pandas.shape0 erow) 1) as [Heq | Hne];
      [intros _; exact Heq | discriminate].
  - intros Hne.
    rewrite (get_behavior_session_found id behavior brow Hb Hqb Hne).
    split; [| reflexivity]. eexists. split; [reflexivity |].
    split; [| split].
    + exists "The behavior_session_table should have ",
        (" behavior_session_id. For " +:+ pretty id +:+ "  there are "
         +:+ pretty (Pandas.shape0 brow) +:+ " entries.").
      reflexivity.
    + exists ("The behavior_session_table should have 1 and only 1 "
              +:+ "entry for a given behavior_session_id. "),
        ("  there are " +:+ pretty (Pandas.shape0 brow) +:+ " entries.").
      rewrite !append_assoc. reflexivity.
    + exists ("The behavior_session_table should have 1 and only 1 "
              +:+ "entry for a given behavior_session_id. For "
              +:+ pretty id +:+ "  "), EmptyString.
      rewrite !append_assoc. reflexivity.
  - apply (get_behavior_session_one id behavior brow Hb Hqb).
Qed.

End SessionLookup.

Section SessionJoin.

Variable self : Api.t.

Lemma get_behavior_session_join (w : World) (id e f : Z)
    (behavior brow sessions erow : DataFrame)
    (index : cell) (values : list cell) :
  attrs w !! "_behavior_session_table" = Some behavior ->
  Pandas.query_eq "behavior_session_id" id behavior = Ok brow ->
  rows brow = [(index, values)] ->
  Pandas.attribute "ecephys_session_id"
    (Pandas.squeeze_row (columns brow) values) = Ok (Some e) ->
  attrs w !! "_ecephys_session_table" = Some sessions ->
  Pandas.query_eq "index" e sessions = Ok erow ->
  Pandas.column (CloudCache.file_id_column (Api.cache self)) erow
  = Ok [Some f] ->
  Api.get_behavior_session self id w
  = (data_path <- Api._get_data_path self (pretty f) ;;
     from_nwb_path BehaviorSession data_path) w.
Proof.
  intros Hb Hqb Hrow Hesid Hs Hqs Hfile. unfold Api.get_behavior_session.
  rewrite (bind_ok _ _ w w behavior (getattr_some _ _ _ Hb)).
  unfold bind at 1, lift at 1. rewrite Hqb, Hrow.
  unfold bind at 1, lift at 1. rewrite Hesid.
  rewrite (bind_ok _ _ w w sessions (getattr_some _ _ _ Hs)).
  unfold bind at 1, lift at 1. rewrite Hqs.
  unfold bind at 1, lift at 1, Api._file_id. rewrite Hfile. reflexivity.
Qed.

End SessionJoin.

(** C4, at the tables of the scenario.  Local storage holds a
    behavior-sessions file of the two fields [behavior_session_id] and
    [ecephys_session_id], with behavior session 5 of ecephys session 10, and
    a sessions file of the two fields [ecephys_session_id] and [file_id],
    with session 10 of file 99; the file of id 99 is on disk.  A local-only
    [load_manifest] reads both tables.  [get_behavior_session(5)] then does
    not resolve file id 99: it raises [AttributeError] and changes nothing.
    The one matching row has a single column, [squeeze] makes a scalar of
    it, and [row.ecephys_session_id] is not defined on a scalar.  On the
    same tables [get_ecephys_session(10)] reads the session from the file
    of id 99, and with one more column in the behavior-sessions file
    [get_behavior_session(5)] reads it too. *)
Theorem get_behavior_session_scenario_raises :
  Api.load_manifest Fixture.local None (Fixture.world Sample.scenario_files)
  = (Ok tt, Sample.scenario_started)
  /\ attrs Sample.scenario_started !! "_behavior_session_table"
     = Some Sample.narrow_behavior_sessions
  /\ attrs Sample.scenario_started !! "_ecephys_session_table"
     = Some scenario_sessions
  /\ fs Sample.scenario_started !! Fixture.data_file "99"
     = Some (NwbFile "session 10")
  /\ (exists msg,
        Api.get_behavior_session Fixture.local 5 Sample.scenario_started
        = (Raise (AttributeError msg), Sample.scenario_started))
  /\ Api.get_ecephys_session Fixture.local 10 Sample.scenario_started
     = (Ok (BehaviorEcephysSession "session 10"), Sample.scenario_started)
  /\ Api.get_behavior_session Fixture.local 5 Fixture.started
     = (Ok (BehaviorSession "session 10"), Fixture.started).
Proof.
  split; [vm_compute; reflexivity |]. split; [vm_compute; reflexivity |].
  split; [vm_compute; reflexivity |]. split; [vm_compute; reflexivity |].
  split; [| split; vm_compute; reflexivity].
  exists "'numpy.int64' object has no attribute 'ecephys_session_id'".
  vm_compute. reflexivity.
Qed.

(** ** Resolving a local path *)

Section LocalPath.

Variables (self : Api.t) (w : World).

Lemma _get_local_path_fname (fname : string) :
  Api._get_local_path self (Some fname) None w
  = path_lookup (CloudCache.metadata_path (Api.cache self) fname w) w.
Proof.
  unfold Api._get_local_path, path_lookup, bind, ask.
  destruct (CloudCache.metadata_path _ _ _) as [entry | e]; [| reflexivity].
  now destruct (exists_ entry).
Qed.

Lemma _get_local_path_file_id (file_id : string) :
  Api._get_local_path self None (Some file_id) w
  = path_lookup (CloudCache.data_path (Api.cache self) file_id w) w.
Proof.
  unfold Api._get_local_path, path_lookup, bind, ask.
  destruct (CloudCache.data_path _ _ _) as [entry | e]; [| reflexivity].
  now destruct (exists_ entry).
Qed.

Lemma path_lookup_world (answer : result CacheEntry) :
  (path_lookup answer w).2 = w.
Proof.
  unfold path_lookup. destruct answer as [entry | e]; [| reflexivity].
  now destruct (exists_ entry).
Qed.

Lemma path_lookup_missing (entry : CacheEntry) :
  exists_ entry = false ->
  missing_locally (path_lookup (Ok entry) w).1 (local_path entry).
Proof.
  intros Hno. unfold path_lookup. rewrite Hno.
  eexists. split; [reflexivity |]. apply occurs_in_mid.
Qed.

(** C5.  In local-only mode neither a metadata category nor a data file id
    is ever downloaded: resolution leaves local storage and the log of
    remote requests as they were, and when the cache answers that the
    expected local path does not exist it raises [FileNotFoundError] with a
    message naming that path. *)
Theorem local_only_never_downloads (fname file_id : string) :
  Api._local self = true ->
  ((Api._get_metadata_path self fname w).2 = w
   /\ net_log (Api._get_metadata_path self fname w).2 = net_log w
   /\ forall entry : CacheEntry,
        CloudCache.metadata_path (Api.cache self) fname w = Ok entry ->
        exists_ entry = false ->
        missing_locally (Api._get_metadata_path self fname w).1
                        (local_path entry))
  /\ ((Api._get_data_path self file_id w).2 = w
      /\ net_log (Api._get_data_path self file_id w).2 = net_log w
      /\ forall entry : CacheEntry,
           CloudCache.data_path (Api.cache self) file_id w = Ok entry ->
           exists_ entry = false ->
           missing_locally (Api._get_data_path self file_id w).1
                           (local_path entry)).
Proof.
  intros Hlocal. unfold Api._get_metadata_path, Api._get_data_path.
  rewrite Hlocal, _get_local_path_fname, _get_local_path_file_id.
  rewrite !path_lookup_world.
  repeat split; intros entry -> Hno; now apply path_lookup_missing.
Qed.

(** C6.  [_get_local_path] given both [fname] and [file_id], or neither,
    raises [ValueError] and looks nothing up; given exactly one of them it
    goes on to the path lookup for that key. *)
Theorem _get_local_path_takes_one_key (fname file_id : string) :
  Api._get_local_path self (Some fname) (Some file_id) w
  = (Raise (ValueError "Must pass only one of fname or file_id"), w)
  /\ Api._get_local_path self None None w
     = (Raise (ValueError "Must pass either fname or file_id"), w)
  /\ Api._get_local_path self (Some fname) None w
     = path_lookup (CloudCache.metadata_path (Api.cache self) fname w) w
  /\ Api._get_local_path self None (Some file_id) w
     = path_lookup (CloudCache.data_path (Api.cache self) file_id w) w.
Proof.
  split; [reflexivity |]. split; [reflexivity |].
  split; [apply _get_local_path_fname | apply _get_local_path_file_id].
Qed.

End LocalPath.

(** ** The facade *)

Section ManifestMethods.

Variables (self : Facade.t) (w : World).

Lemma _cache_not_implemented_names {A} (method : string) :
  @Facade._cache_not_implemented A self method w
  = (Raise (NotImplementedError
              ("Method " +:+ method +:+ " does not exist for this "
               +:+ "VisualBehaviorEcephysProjectCache, which is based on "
               +:+ Facade.api_type_name (Facade.fetch_api self))), w)
  /\ not_implemented (@Facade._cache_not_implemented A self method w).1
                     method (Facade.api_type_name (Facade.fetch_api self)).
Proof.
  assert (E : @Facade._cache_not_implemented A self method w
              = (Raise (NotImplementedError
                   ("Method " +:+ method +:+ " does not exist for this "
                    +:+ "VisualBehaviorEcephysProjectCache, which is based on "
                    +:+ Facade.api_type_name (Facade.fetch_api self))), w)).
  { unfold Facade._cache_not_implemented, raise, Facade.self_type_name.
    rewrite !append_assoc. reflexivity. }
  split; [exact E |]. rewrite E. eexists. split; [reflexivity |]. split.
  - apply occurs_in_mid.
  - do 4 apply occurs_in_prefix. apply occurs_in_refl.
Qed.

Lemma with_cloud_cache_refuses {A} (method : string) (body : Api.t -> M A) :
  Facade.is_cloud_api (Facade.fetch_api self) = false ->
  not_implemented (Facade.with_cloud_cache self method body w).1
                  method (Facade.api_type_name (Facade.fetch_api self))
  /\ (Facade.with_cloud_cache self method body w).2 = w.
Proof.
  intros Hno.
  assert (Facade.with_cloud_cache self method body w
          = Facade._cache_not_implemented self method w) as ->.
  { unfold Facade.with_cloud_cache.
    now destruct (Facade.fetch_api self). }
  split; [apply _cache_not_implemented_names |].
  now rewrite (proj1 (_cache_not_implemented_names _)).
Qed.

(** C7, as the code has it.  When the fetch API of the facade is not a
    [BehaviorEcephysProjectCloudApi] (it is [None], or of another class),
    each of the nine manifest methods raises at once a
    [NotImplementedError] whose message names the method and the type of
    the fetch API, and changes nothing.  When the fetch API is a
    [BehaviorEcephysProjectCloudApi], local-only or not, each method is the
    method of its cache. *)
Theorem manifest_methods_need_cloud_api (m0 m1 name : string) :
  Facade.is_cloud_api (Facade.fetch_api self) = false ->
  let backend := Facade.api_type_name (Facade.fetch_api self) in
  (not_implemented (Facade.construct_local_manifest self w).1
                   "construct_local_manifest" backend
   /\ not_implemented (Facade.compare_manifests self m0 m1 w).1
                      "compare_manifests" backend
   /\ not_implemented (Facade.load_latest_manifest self w).1
                      "load_latest_manifest" backend
   /\ not_implemented (Facade.latest_downloaded_manifest_file self w).1
                      "latest_downloaded_manifest_file" backend
   /\ not_implemented (Facade.latest_manifest_file self w).1
                      "latest_manifest_file" backend
   /\ not_implemented (Facade.load_manifest self name w).1
                      "load_manifest" backend
   /\ not_implemented (Facade.list_all_downloaded_manifests self w).1
                      "list_all_downloaded_manifests" backend
   /\ not_implemented (Facade.list_manifest_file_names self w).1
                      "list_manifest_file_names" backend
   /\ not_implemented (Facade.current_manifest self w).1
                      "current_manifest" backend)
  /\ (forall (api : Api.t) (tries : Z),
        let cloud := {| Facade.fetch_api := ApiCloud api;
                        Facade.fetch_tries := tries |} in
        let cache := Api.cache api in
        Facade.construct_local_manifest cloud
        = CloudCache.construct_local_manifest cache
        /\ Facade.compare_manifests cloud m0 m1
           = CloudCache.compare_manifests cache m0 m1
        /\ Facade.load_latest_manifest cloud
           = CloudCache.load_latest_manifest cache
        /\ Facade.latest_downloaded_manifest_file cloud
           = CloudCache.latest_downloaded_manifest_file cache
        /\ Facade.latest_manifest_file cloud
           = CloudCache.latest_manifest_file cache
        /\ Facade.load_manifest cloud name
           = Api.load_manifest api (Some name)
        /\ Facade.list_all_downloaded_manifests cloud
           = CloudCache.list_all_downloaded_manifests cache
        /\ Facade.list_manifest_file_names cloud
           = CloudCache.manifest_file_names cache
        /\ Facade.current_manifest cloud
           = CloudCache.current_manifest cache).
Proof.
  intros Hno backend. split.
  - repeat split; now apply with_cloud_cache_refuses.
  - intros api tries cloud cache. repeat split; reflexivity.
Qed.

(** C10.  Whatever tables the fetch API returns, the facade wraps those of
    [get_ecephys_session_table], [get_behavior_session_table],
    [get_channel_table] and [get_unit_table] in a tuple of one element, not
    the table itself, and [get_probe_table] calls the fetch API and returns
    [None]. *)
Theorem table_accessors_return_tuples
    (sessions behavior channels units probes : DataFrame)
    (ws wb wc wu wp : World) :
  Facade.api_get_ecephys_session_table (Facade.fetch_api self) w
  = (Ok sessions, ws) ->
  Facade.api_get_behavior_session_table (Facade.fetch_api self) w
  = (Ok behavior, wb) ->
  Facade.api_get_channel_table (Facade.fetch_api self) w = (Ok channels, wc) ->
  Facade.api_get_unit_table (Facade.fetch_api self) w = (Ok units, wu) ->
  Facade.api_get_probe_table (Facade.fetch_api self) w = (Ok probes, wp) ->
  Facade.get_ecephys_session_table self w = (Ok (PyTuple [sessions]), ws)
  /\ Facade.get_behavior_session_table self w = (Ok (PyTuple [behavior]), wb)
  /\ Facade.get_channel_table self w = (Ok (PyTuple [channels]), wc)
  /\ Facade.get_unit_table self w = (Ok (PyTuple [units]), wu)
  /\ Facade.get_probe_table self w = (Ok PyNone, wp)
  /\ PyTuple [sessions] <> PyFrame sessions
  /\ PyNone <> PyFrame probes.
Proof.
  intros Hs Hb Hc Hu Hp.
  unfold Facade.get_ecephys_session_table, Facade.get_behavior_session_table,
    Facade.get_channel_table, Facade.get_unit_table, Facade.get_probe_table.
  rewrite (bind_ok _ _ _ _ _ Hs), (bind_ok _ _ _ _ _ Hb),
    (bind_ok _ _ _ _ _ Hc), (bind_ok _ _ _ _ _ Hu), (bind_ok _ _ _ _ _ Hp).
  repeat split; discriminate.
Qed.

End ManifestMethods.

Section SessionFetch.

Lemma call_caching_direct {A} (fetch : M A) (w : World) :
  call_caching fetch (fun x => ret x) false (Some fetch) w = fetch w.
Proof.
  unfold call_caching, bind, ret.
  now destruct (fetch w) as [[a | e] w'].
Qed.

(** C9.  With the caching helper as the spec describes it, writing and
    laziness disabled, the facade's [get_ecephys_session(id)] and
    [get_behavior_session(id)] give the result, the error and the world of
    a direct call of the fetch API's method. *)
Theorem facade_fetch_is_direct_call (api : Api.t) (other : OtherApi)
    (tries id : Z) (w : World) :
  Facade.get_ecephys_session
    {| Facade.fetch_api := ApiCloud api; Facade.fetch_tries := tries |} id w
  = Api.get_ecephys_session api id w
  /\ Facade.get_behavior_session
       {| Facade.fetch_api := ApiCloud api; Facade.fetch_tries := tries |} id w
     = Api.get_behavior_session api id w
  /\ Facade.get_ecephys_session
       {| Facade.fetch_api := ApiOther other; Facade.fetch_tries := tries |}
       id w
     = other_get_ecephys_session other id w
  /\ Facade.get_behavior_session
       {| Facade.fetch_api := ApiOther other; Facade.fetch_tries := tries |}
       id w
     = other_get_behavior_session other id w.
Proof. repeat split; apply call_caching_direct. Qed.

(** C8, as the code has it.  [fetch_tries] defaults to 2 and is stored,
    but no session fetch reads it: whatever the caching helper does with
    its arguments, the result does not depend on [fetch_tries].  With a
    remote store whose first request fails, a facade with the default
    [fetch_tries] gives up after one request, although the next request
    succeeds. *)
Theorem fetch_tries_is_not_used :
  Facade.fetch_tries (Facade.__init__ None None) = 2
  /\ (forall helper (api : FetchApi) (n m id : Z),
        Facade.get_ecephys_session_with helper
          {| Facade.fetch_api := api; Facade.fetch_tries := n |} id
        = Facade.get_ecephys_session_with helper
            {| Facade.fetch_api := api; Facade.fetch_tries := m |} id
        /\ Facade.get_behavior_session_with helper
             {| Facade.fetch_api := api; Facade.fetch_tries := n |} id
           = Facade.get_behavior_session_with helper
               {| Facade.fetch_api := api; Facade.fetch_tries := m |} id)
  /\ (let started :=
        (Api.load_manifest (Fixture.cloud_api Fixture.flaky) None
                           (Fixture.world Fixture.tables_only)).2 in
      let first := Facade.get_ecephys_session Fixture.flaky_facade 10 started in
      let second :=
        Facade.get_ecephys_session Fixture.flaky_facade 10 first.2 in
      Facade.fetch_tries Fixture.flaky_facade = 2
      /\ net_log started = []
      /\ first.1 = Raise (ExternalError "S3CloudCache"
                            "could not download /cache/99.nwb")
      /\ net_log first.2 = ["/cache/99.nwb"]
      /\ second.1 = Ok (BehaviorEcephysSession "session 10")).
Proof.
  split; [reflexivity |]. split; [intros; split; reflexivity |].
  vm_compute. repeat split; reflexivity.
Qed.

End SessionFetch.

(** ** The statements at concrete inputs *)

Lemma load_manifest_version_window_witness :
  (Api.skip_version_check Fixture.min_api = false
   /\ cache_load Fixture.min_api None (Fixture.world Fixture.files)
      = (Ok tt, Fixture.activated Fixture.five "0.1.0")
   /\ (list_to_set Fixture.five : gset string) = Api.expected_metadata
   /\ Semver.parse "0.1.0" = Ok vmin
   /\ is_ok (Api._load_tables Fixture.min_api
               (Fixture.activated Fixture.five "0.1.0")).1 = true)
  /\ (is_ok (Api.load_manifest Fixture.min_api None
               (Fixture.world Fixture.files)).1 = true
      <-> in_window vmin)
  /\ (Semver.compare vmin vmin = Eq ->
      is_ok (Api.load_manifest Fixture.min_api None
               (Fixture.world Fixture.files)).1 = true).
Proof.
  assert (H1 : Api.skip_version_check Fixture.min_api = false)
    by reflexivity.
  assert (H2 : cache_load Fixture.min_api None (Fixture.world Fixture.files)
               = (Ok tt, Fixture.activated Fixture.five "0.1.0"))
    by reflexivity.
  assert (H3 : metadata_file_names
                 (_manifest (Fixture.activated Fixture.five "0.1.0"))
               = Some Fixture.five) by reflexivity.
  assert (H4 : (list_to_set Fixture.five : gset string)
               = Api.expected_metadata) by reflexivity.
  assert (H5 : Api.data_sdk_version
                 (_data_pipeline
                    (_manifest (Fixture.activated Fixture.five "0.1.0")))
               = Ok "2.13.4") by (vm_compute; reflexivity).
  assert (H6 : Semver.parse
                 (version (_manifest (Fixture.activated Fixture.five "0.1.0")))
               = Ok vmin) by reflexivity.
  assert (H7 : is_ok (Api._load_tables Fixture.min_api
                        (Fixture.activated Fixture.five "0.1.0")).1 = true)
    by (vm_compute; reflexivity).
  destruct (load_manifest_version_window Fixture.min_api None
              (Fixture.world Fixture.files)
              (Fixture.activated Fixture.five "0.1.0") Fixture.five
              "2.13.4" vmin H1 H2 H3 H4 H5 H6 H7) as (Hiff & Hmin & _).
  repeat apply conj; try assumption; apply Hiff.
Defined.

Example load_manifest_at_max :
  (Api.load_manifest Fixture.max_api None (Fixture.world Fixture.files)).1
  = Raise (BehaviorCloudCacheVersionException
             ("the manifest has manifest_version 1.0.0 but this version of "
              +:+ "AllenSDK is compatible only with manifest versions "
              +:+ "0.1.0 <= X < 1.0.0. " +:+ nl
              +:+ "Consider using a version of AllenSDK closer to the "
              +:+ "version used to release the data: 2.13.4")).
Proof. vm_compute. reflexivity. Qed.

Example load_manifest_prerelease_of_max :
  is_ok (Api.load_manifest (Fixture.local_api Fixture.five "1.0.0-rc.1") None
           (Fixture.world Fixture.files)).1 = true
  /\ is_ok (Api.load_manifest (Fixture.local_api Fixture.five "0.1.0-rc.1")
              None (Fixture.world Fixture.files)).1 = false.
Proof. split; vm_compute; reflexivity. Qed.

Lemma load_manifest_exact_categories_witness :
  (cache_load (Fixture.local_api Fixture.no_channels "0.5.0") None
     (Fixture.world Fixture.files)
   = (Ok tt, Fixture.activated Fixture.no_channels "0.5.0")
   /\ "channels" ∈ Api.expected_metadata
   /\ "channels" ∉ Fixture.no_channels)
  /\ invalid_manifest
       (Api.load_manifest (Fixture.local_api Fixture.no_channels "0.5.0") None
          (Fixture.world Fixture.files)).1.
Proof.
  assert (H1 : cache_load (Fixture.local_api Fixture.no_channels "0.5.0") None
                 (Fixture.world Fixture.files)
               = (Ok tt, Fixture.activated Fixture.no_channels "0.5.0"))
    by reflexivity.
  assert (H2 : metadata_file_names
                 (_manifest (Fixture.activated Fixture.no_channels "0.5.0"))
               = Some Fixture.no_channels) by reflexivity.
  assert (H3 : "channels" ∈ Api.expected_metadata)
    by (apply (bool_decide_unpack ("channels" ∈ Api.expected_metadata));
        vm_compute; exact I).
  assert (H4 : "channels" ∉ Fixture.no_channels)
    by (apply (bool_decide_unpack ("channels" ∉ Fixture.no_channels));
        vm_compute; exact I).
  destruct (load_manifest_exact_categories
              (Fixture.local_api Fixture.no_channels "0.5.0") None
              (Fixture.world Fixture.files)
              (Fixture.activated Fixture.no_channels "0.5.0")
              Fixture.no_channels H1 H2) as (_ & _ & Hmissing & _).
  repeat apply conj; try assumption. exact (Hmissing "channels" H3 H4).
Defined.

Example load_manifest_extra_table :
  exists msg,
    (Api.load_manifest (Fixture.local_api Fixture.extra_table "0.5.0") None
       (Fixture.world Fixture.files)).1 = Raise (RuntimeError msg).
Proof. eexists. vm_compute. reflexivity. Qed.

Lemma session_lookup_needs_one_row_witness :
  (attrs Fixture.started !! "_ecephys_session_table" = Some scenario_sessions
   /\ Pandas.query_eq "index" 6 scenario_sessions
      = Ok (Fixture.no_row scenario_sessions)
   /\ attrs Fixture.started !! "_behavior_session_table"
      = Some wide_behavior_sessions
   /\ Pandas.query_eq "behavior_session_id" 6 wide_behavior_sessions
      = Ok (Fixture.no_row wide_behavior_sessions))
  /\ integrity_error (Api.get_ecephys_session Fixture.local 6
                        Fixture.started).1 6 0
  /\ integrity_error (Api.get_behavior_session Fixture.local 6
                        Fixture.started).1 6 0.
Proof.
  assert (H1 : attrs Fixture.started !! "_ecephys_session_table"
               = Some scenario_sessions) by (vm_compute; reflexivity).
  assert (H2 : Pandas.query_eq "index" 6 scenario_sessions
               = Ok (Fixture.no_row scenario_sessions)) by reflexivity.
  assert (H3 : attrs Fixture.started !! "_behavior_session_table"
               = Some wide_behavior_sessions) by (vm_compute; reflexivity).
  assert (H4 : Pandas.query_eq "behavior_session_id" 6
                 wide_behavior_sessions
               = Ok (Fixture.no_row wide_behavior_sessions))
    by reflexivity.
  destruct (session_lookup_needs_one_row Fixture.local Fixture.started 6
              scenario_sessions (Fixture.no_row scenario_sessions)
              wide_behavior_sessions
              (Fixture.no_row wide_behavior_sessions) H1 H2 H3 H4)
    as (He & _ & Hb & _).
  repeat apply conj; try assumption.
  - apply He. discriminate.
  - apply Hb. discriminate.
Defined.

Example get_behavior_session_absent :
  (Api.get_behavior_session Fixture.local 6 Fixture.started).1
  = Raise (RuntimeError
             ("The behavior_session_table should have 1 and only 1 entry "
              +:+ "for a given behavior_session_id. For 6  there are 0 "
              +:+ "entries.")).
Proof. vm_compute. reflexivity. Qed.

Example get_ecephys_session_duplicated :
  (Api.get_ecephys_session Fixture.local 10 Fixture.duplicated).1
  = Raise (RuntimeError
             ("The behavior_ecephys_session_table should have 1 and only 1 "
              +:+ "entry for a given ecephys_session_id. For 10  there are 2 "
              +:+ "entries.")).
Proof. vm_compute. reflexivity. Qed.

Lemma local_only_never_downloads_witness :
  (Api._local Fixture.local = true
   /\ CloudCache.data_path (Api.cache Fixture.local) "99"
        Fixture.nothing_on_disk
      = Ok {| exists_ := false; local_path := "/cache/99.nwb" |})
  /\ missing_locally
       (Api._get_data_path Fixture.local "99" Fixture.nothing_on_disk).1
       "/cache/99.nwb"
  /\ net_log (Api._get_data_path Fixture.local "99"
                Fixture.nothing_on_disk).2 = []
  /\ missing_locally
       (Api._get_metadata_path Fixture.local "sessions"
          Fixture.nothing_on_disk).1
       "/cache/sessions.csv".
Proof.
  assert (H1 : Api._local Fixture.local = true) by reflexivity.
  assert (H2 : CloudCache.data_path (Api.cache Fixture.local) "99"
                 Fixture.nothing_on_disk
               = Ok {| exists_ := false; local_path := "/cache/99.nwb" |})
    by (vm_compute; reflexivity).
  assert (H3 : CloudCache.metadata_path (Api.cache Fixture.local) "sessions"
                 Fixture.nothing_on_disk
               = Ok {| exists_ := false;
                       local_path := "/cache/sessions.csv" |})
    by (vm_compute; reflexivity).
  destruct (local_only_never_downloads Fixture.local Fixture.nothing_on_disk
              "sessions" "99" H1)
    as ((_ & _ & Hmeta) & (_ & Hlog & Hdata)).
  repeat apply conj; try assumption.
  - exact (Hdata _ H2 eq_refl).
  - exact (Hmeta _ H3 eq_refl).
Defined.

Example cloud_mode_downloads :
  Api._get_data_path Fixture.cloud "99" (Fixture.world Fixture.tables_only)
  = (Ok "/cache/99.nwb",
     {| fs := Fixture.files; net_log := ["/cache/99.nwb"];
        _manifest := Fixture.blank; attrs := ∅ |}).
Proof. vm_compute. reflexivity. Qed.

Lemma manifest_methods_need_cloud_api_witness :
  Facade.is_cloud_api (Facade.fetch_api Fixture.no_api_facade) = false
  /\ not_implemented
       (Facade.compare_manifests Fixture.no_api_facade "v1" "v2"
          Fixture.nothing_on_disk).1
       "compare_manifests" "NoneType"
  /\ not_implemented
       (Facade.list_all_downloaded_manifests Fixture.no_api_facade
          Fixture.nothing_on_disk).1
       "list_all_downloaded_manifests" "NoneType".
Proof.
  assert (H : Facade.is_cloud_api (Facade.fetch_api Fixture.no_api_facade)
              = false) by reflexivity.
  destruct (manifest_methods_need_cloud_api Fixture.no_api_facade
              Fixture.nothing_on_disk "v1" "v2" "v1" H)
    as ((_ & Hcompare & _ & _ & _ & _ & Hlist & _) & _).
  repeat apply conj; assumption.
Defined.

(** A facade built by [from_local_cache] is local-only, and its manifest
    methods answer from the cache: none raises [NotImplementedError]. *)
Lemma local_only_facade_manifest_methods :
  Facade.from_local_cache Fixture.local_cache (Fixture.world Fixture.files)
  = (Ok Fixture.local_facade, Fixture.started)
  /\ Facade.fetch_api Fixture.local_facade = ApiCloud Fixture.local
  /\ Api._local Fixture.local = true
  /\ Facade.list_all_downloaded_manifests Fixture.local_facade Fixture.started
     = (Ok ["manifest_v1.json"], Fixture.started)
  /\ Facade.compare_manifests Fixture.local_facade "v1" "v2" Fixture.started
     = (Ok "Changes going from v1 to v2", Fixture.started)
  /\ Facade.current_manifest Fixture.local_facade Fixture.started
     = (Ok (Some "manifest_v1.json"), Fixture.started)
  /\ ~ (exists backend,
          not_implemented
            (Facade.list_all_downloaded_manifests Fixture.local_facade
               Fixture.started).1
            "list_all_downloaded_manifests" backend).
Proof.
  repeat apply conj; try (vm_compute; reflexivity).
  intros (backend & msg & H & _). vm_compute in H. discriminate.
Qed.

Lemma table_accessors_return_tuples_witness :
  (Facade.api_get_ecephys_session_table
     (Facade.fetch_api Fixture.local_facade) Fixture.started
   = (Ok scenario_sessions, Fixture.started)
   /\ Facade.api_get_probe_table
        (Facade.fetch_api Fixture.local_facade) Fixture.started
      = (Ok (Fixture.one_row "ecephys_probe_id"), Fixture.started))
  /\ Facade.get_ecephys_session_table Fixture.local_facade Fixture.started
     = (Ok (PyTuple [scenario_sessions]), Fixture.started)
  /\ Facade.get_probe_table Fixture.local_facade Fixture.started
     = (Ok PyNone, Fixture.started).
Proof.
  assert (H1 : Facade.api_get_ecephys_session_table
                 (Facade.fetch_api Fixture.local_facade) Fixture.started
               = (Ok scenario_sessions, Fixture.started))
    by (vm_compute; reflexivity).
  assert (H2 : Facade.api_get_behavior_session_table
                 (Facade.fetch_api Fixture.local_facade) Fixture.started
               = (Ok wide_behavior_sessions, Fixture.started))
    by (vm_compute; reflexivity).
  assert (H3 : Facade.api_get_channel_table
                 (Facade.fetch_api Fixture.local_facade) Fixture.started
               = (Ok (Fixture.one_row "ecephys_channel_id"), Fixture.started))
    by (vm_compute; reflexivity).
  assert (H4 : Facade.api_get_unit_table
                 (Facade.fetch_api Fixture.local_facade) Fixture.started
               = (Ok (Fixture.one_row "unit_id"), Fixture.started))
    by (vm_compute; reflexivity).
  assert (H5 : Facade.api_get_probe_table
                 (Facade.fetch_api Fixture.local_facade) Fixture.started
               = (Ok (Fixture.one_row "ecephys_probe_id"), Fixture.started))
    by (vm_compute; reflexivity).
  destruct (table_accessors_return_tuples Fixture.local_facade Fixture.started
              _ _ _ _ _ _ _ _ _ _ H1 H2 H3 H4 H5)
    as (Hs & _ & _ & _ & Hp & _).
  repeat apply conj; assumption.
Defined.

(** ** Versions at concrete inputs *)

Example parse_bounds :
  Semver.parse cmin = Ok vmin /\ Semver.parse cmax = Ok vmax.
Proof. split; reflexivity. Qed.

Example parse_prerelease_and_build :
  Semver.parse "1.0.0-rc.1+build5"
  = Ok {| Semver.major := 1; Semver.minor := 0; Semver.patch := 0;
          Semver.prerelease := Some "rc.1"; Semver.build := Some "build5" |}.
Proof. reflexivity. Qed.

Example parse_leading_zero : is_ok (Semver.parse "01.0.0") = false.
Proof. reflexivity. Qed.

Example version_check_window :
  version_check "0.1.0" "2.13.4" cmin cmax = Ok tt
  /\ version_check "0.99.7" "2.13.4" cmin cmax = Ok tt
  /\ is_ok (version_check "0.0.9" "2.13.4" cmin cmax) = false
  /\ is_ok (version_check "1.0.0" "2.13.4" cmin cmax) = false
  /\ is_ok (version_check "1.0.0+build5" "2.13.4" cmin cmax) = false
  /\ is_ok (version_check "2.3.1" "2.13.4" cmin cmax) = false.
Proof. repeat apply conj; reflexivity. Qed.

(** * Further properties of the code *)

(** ** The AllenSDK entry of the data pipeline *)

Section DataPipeline.

Implicit Types (pipeline : list (gmap string string)) (i : gmap string string).

Lemma allensdk_entries_ok pipeline :
  Forall (fun i => is_Some (i !! "name")) pipeline ->
  Api.allensdk_entries pipeline
  = Ok (List.filter (fun i => bool_decide (i !! "name" = Some "AllenSDK"))
                    pipeline).
Proof.
  induction 1 as [|i rest [name Hname] _ IH]; [reflexivity |].
  simpl. rewrite Hname, IH. f_equal.
  destruct (String.eqb_spec name "AllenSDK") as [-> | Hne].
  - now rewrite bool_decide_eq_true_2.
  - rewrite bool_decide_eq_false_2; [reflexivity | congruence].
Qed.

Lemma allensdk_entries_no_name pipeline :
  Exists (fun i => i !! "name" = None) pipeline ->
  Api.allensdk_entries pipeline = Raise (KeyError "name").
Proof.
  induction pipeline as [|i rest IH]; intros Hex; [inversion Hex |].
  simpl. destruct (i !! "name") as [name|] eqn:Hname; [| reflexivity].
  rewrite IH; [reflexivity |].
  inversion Hex as [? ? Hhere | ? ? Hthere]; subst; [congruence | assumption].
Qed.

Lemma all_named_dec pipeline :
  Forall (fun i => is_Some (i !! "name")) pipeline
  \/ Exists (fun i => i !! "name" = None) pipeline.
Proof.
  induction pipeline as [|i rest [IH | IH]].
  - left. constructor.
  - destruct (i !! "name") as [name|] eqn:Hname.
    + left. constructor; [now exists name | assumption].
    + right. now constructor.
  - right. now constructor 2.
Qed.

Lemma data_sdk_version_nameless pipeline :
  Exists (fun i => i !! "name" = None) pipeline ->
  Api.data_sdk_version pipeline = Raise (KeyError "name").
Proof.
  intros Hex. unfold Api.data_sdk_version.
  now rewrite (allensdk_entries_no_name _ Hex).
Qed.

Lemma data_sdk_version_no_entry pipeline :
  Forall (fun i => exists name, i !! "name" = Some name /\ name <> "AllenSDK")
         pipeline ->
  Api.data_sdk_version pipeline = Raise (IndexError "list index out of range").
Proof.
  intros Hnot. unfold Api.data_sdk_version.
  rewrite allensdk_entries_ok.
  - assert (Hnone : List.filter
                      (fun i => bool_decide (i !! "name" = Some "AllenSDK"))
                      pipeline = []).
    { induction Hnot as [|i rest (name & Hn & Hne) _ IH]; [reflexivity |].
      simpl. rewrite bool_decide_eq_false_2; [exact IH |].
      rewrite Hn. congruence. }
    now rewrite Hnone.
  - eapply Forall_impl; [exact Hnot |].
    intros i (name & Hn & _). now exists name.
Qed.

(** X1.  Which entry [data_sdk_version] reads: the first one named AllenSDK,
    provided every entry of the pipeline has a name. *)
Theorem data_sdk_version_reads_first_entry
    (before after : list (gmap string string)) (entry : gmap string string) :
  Forall (fun i => exists name, i !! "name" = Some name /\ name <> "AllenSDK")
         before ->
  entry !! "name" = Some "AllenSDK" ->
  Forall (fun i => is_Some (i !! "name")) after ->
  Api.data_sdk_version (before ++ entry :: after)
  = match entry !! "version" with
    | Some v => Ok v
    | None => Raise (KeyError "version")
    end.
Proof.
  intros Hbefore Hentry Hafter. unfold Api.data_sdk_version.
  rewrite allensdk_entries_ok.
  - rewrite List.filter_app.
    assert (Hnone : List.filter
                      (fun i => bool_decide (i !! "name" = Some "AllenSDK"))
                      before = []).
    { clear -Hbefore. induction Hbefore as [|i rest (name & Hn & Hne) _ IH];
        [reflexivity |].
      simpl. rewrite bool_decide_eq_false_2; [exact IH |].
      rewrite Hn. congruence. }
    rewrite Hnone. simpl. rewrite bool_decide_eq_true_2 by exact Hentry.
    now destruct (entry !! "version").
  - apply Forall_app. split.
    + eapply Forall_impl; [exact Hbefore |].
      intros i (name & Hn & _). now exists name.
    + constructor; [now exists "AllenSDK" | exact Hafter].
Qed.

(** X2.  When [data_sdk_version] fails on the pipeline itself: [KeyError] for
    [name] exactly when some entry has no name, even with an AllenSDK entry
    before it; [IndexError] exactly when every entry has a name and none is
    named AllenSDK. *)
Theorem data_sdk_version_failures pipeline :
  (Api.data_sdk_version pipeline = Raise (KeyError "name")
   <-> Exists (fun i => i !! "name" = None) pipeline)
  /\ (Api.data_sdk_version pipeline
      = Raise (IndexError "list index out of range")
      <-> Forall (fun i => exists name,
                    i !! "name" = Some name /\ name <> "AllenSDK") pipeline).
Proof.
  unfold Api.data_sdk_version.
  destruct (all_named_dec pipeline) as [Hall | Hex].
  - rewrite (allensdk_entries_ok _ Hall). split.
    + split.
      * destruct (List.filter _ pipeline) as [|i ?]; [discriminate |].
        destruct (i !! "version"); discriminate.
      * intros Hex. exfalso. clear -Hall Hex.
        induction Hex as [i rest Hno | i rest _ IH];
          inversion Hall as [|? ? [name Hname] Hrest]; subst;
          [congruence | now apply IH].
    + split.
      * intros Hfail.
        assert (Hnone : List.filter
                          (fun i => bool_decide
                                      (i !! "name" = Some "AllenSDK"))
                          pipeline = []).
        { destruct (List.filter _ pipeline) as [|i ?]; [reflexivity |].
          destruct (i !! "version"); discriminate. }
        clear Hfail. induction Hall as [|i rest [name Hname] _ IH];
          constructor.
        -- exists name. split; [exact Hname |]. intros ->.
           simpl in Hnone.
           now rewrite bool_decide_eq_true_2 in Hnone by exact Hname.
        -- apply IH. simpl in Hnone.
           destruct (bool_decide _); [discriminate | exact Hnone].
      * intros Hnot.
        assert (Hnone : List.filter
                          (fun i => bool_decide
                                      (i !! "name" = Some "AllenSDK"))
                          pipeline = []).
        { clear -Hnot. induction Hnot as [|i rest (name & Hn & Hne) _ IH];
            [reflexivity |].
          simpl. rewrite bool_decide_eq_false_2; [exact IH |].
          rewrite Hn. congruence. }
        now rewrite Hnone.
  - rewrite (allensdk_entries_no_name _ Hex). split.
    + split; [intros _; exact Hex | reflexivity].
    + split; [discriminate |].
      intros Hnot. exfalso. clear -Hnot Hex.
      induction Hex as [i rest Hno | i rest _ IH];
        inversion Hnot as [|? ? (name & Hn & _) Hrest]; subst;
        [congruence | now apply IH].
Qed.

End DataPipeline.

(** ** More on loading a manifest *)

Section LoadManifestMore.

Variables (self : Api.t) (name : option string) (w w1 : World).

(** X3.  With [skip_version_check] set, neither the version of the manifest nor
    its data pipeline is looked at: once the category check has passed,
    [load_manifest] is the reading of the five tables. *)
Theorem load_manifest_skipping_ignores_version (names : list string) :
  Api.skip_version_check self = true ->
  cache_load self name w = (Ok tt, w1) ->
  metadata_file_names (_manifest w1) = Some names ->
  (list_to_set names : gset string) = Api.expected_metadata ->
  Api.load_manifest self name w = Api._load_tables self w1.
Proof.
  intros Hskip Hload Hnames Hset.
  rewrite (load_manifest_loaded self name w w1 names Hload Hnames).
  rewrite bool_decide_eq_false_2 by (intros Hne; now apply Hne).
  rewrite Hskip. reflexivity.
Qed.

(** X4.  What stops [load_manifest] before it compares versions, with the check
    on and the categories right: a data pipeline without a named AllenSDK
    entry ([IndexError], or [KeyError] for a nameless entry) and a declared
    version that is not a semantic version ([ValueError] naming it).  In
    each case no table has been read. *)
Theorem load_manifest_fails_before_the_window (names : list string) :
  Api.skip_version_check self = false ->
  cache_load self name w = (Ok tt, w1) ->
  metadata_file_names (_manifest w1) = Some names ->
  (list_to_set names : gset string) = Api.expected_metadata ->
  (Forall (fun i : gmap string string =>
             exists n, i !! "name" = Some n /\ n <> "AllenSDK")
          (_data_pipeline (_manifest w1)) ->
   Api.load_manifest self name w
   = (Raise (IndexError "list index out of range"), w1))
  /\ (Exists (fun i : gmap string string => i !! "name" = None)
             (_data_pipeline (_manifest w1)) ->
      Api.load_manifest self name w = (Raise (KeyError "name"), w1))
  /\ (forall sdk : string,
        Api.data_sdk_version (_data_pipeline (_manifest w1)) = Ok sdk ->
        is_ok (Semver.parse (version (_manifest w1))) = false ->
        Api.load_manifest self name w
        = (Raise (ValueError (version (_manifest w1)
                              +:+ " is not valid SemVer string")), w1)).
Proof.
  intros Hskip Hload Hnames Hset.
  rewrite (load_manifest_loaded self name w w1 names Hload Hnames).
  rewrite bool_decide_eq_false_2 by (intros Hne; now apply Hne).
  rewrite Hskip. simpl negb. cbv iota.
  split; [| split].
  - intros Hnone. apply data_sdk_version_no_entry in Hnone.
    unfold bind at 1 2, lift at 1. now rewrite Hnone.
  - intros Hnameless. apply data_sdk_version_nameless in Hnameless.
    unfold bind at 1 2, lift at 1. now rewrite Hnameless.
  - intros sdk Hsdk Hbad.
    unfold bind at 1 2, lift at 1 2. rewrite Hsdk.
    unfold version_check.
    assert (Hparse : Semver.parse (version (_manifest w1))
                     = Raise (ValueError (version (_manifest w1)
                                +:+ " is not valid SemVer string"))).
    { revert Hbad. unfold Semver.parse.
      destruct (Semver.cut "+" _) as [main bld].
      destruct (Semver.cut "-" main) as [core pre].
      destruct (Semver.split "." core) as [|a [|b [|c [|d rest]]]];
        try reflexivity.
      destruct (_ && _); [discriminate | reflexivity]. }
    now rewrite Hparse.
Qed.

End LoadManifestMore.

(** ** The versions [version_check] accepts *)

Section AcceptedVersions.

Import Semver.

Lemma split_cons (sep : ascii) (s : string) :
  exists first rest, split sep s = first :: rest.
Proof.
  induction s as [|c s (first & rest & IH)]; simpl; [now eexists _, _ |].
  destruct (Ascii.eqb c sep); [now eexists _, _ |].
  rewrite IH. now eexists _, _.
Qed.

Lemma _nat_cmp_prerelease_none (pre : option string) :
  is_empty pre = false -> _nat_cmp pre None <> Eq.
Proof.
  destruct pre as [[|c p]|]; try discriminate. intros _.
  unfold _nat_cmp, split_key. simpl default.
  destruct (split_cons "." (String c p)) as (first & rest & ->).
  simpl. destruct (cmp_prerelease_tag (convert first) (TStr "")); try discriminate.
  destruct rest; discriminate.
Qed.

(** Against a release [a.b.c], a version with the same three numbers is
    equal when it has no prerelease and lower when it has one. *)
Lemma compare_release (v : VersionInfo) (a b c : N) :
  compare v (release a b c)
  = match cmp3 (major v, minor v, patch v) (a, b, c) with
    | Eq => if is_empty (prerelease v) then Eq else Lt
    | other => other
    end.
Proof.
  unfold compare, release. cbn [major minor patch prerelease].
  destruct (cmp3 _ _); try reflexivity.
  destruct (is_empty (prerelease v)) eqn:E.
  - now rewrite (SemverFacts._nat_cmp_empty (prerelease v) None E).
  - pose proof (_nat_cmp_prerelease_none _ E).
    now destruct (_nat_cmp (prerelease v) None).
Qed.

Lemma in_window_accepted (v : VersionInfo) : in_window v <-> accepted v.
Proof.
  unfold in_window, accepted, le, lt.
  rewrite (SemverFacts.compare_antisym vmin v).
  unfold vmin, vmax. rewrite !compare_release. unfold cmp3.
  destruct (N.compare_spec (major v) 0) as [HM0 | HM0 | HM0];
    destruct (N.compare_spec (major v) 1) as [HM1 | HM1 | HM1]; try lia;
    destruct (N.compare_spec (minor v) 1) as [Hm1 | Hm1 | Hm1];
    destruct (N.compare_spec (minor v) 0) as [Hm0 | Hm0 | Hm0]; try lia;
    destruct (N.compare_spec (patch v) 0) as [Hp | Hp | Hp]; try lia;
    destruct (is_empty (prerelease v)); simpl;
    intuition (try discriminate; try lia).
Qed.

(** X5.  With the default range, [version_check] accepts a semantic version
    exactly when it is [0.Y.Z] from [0.1.0] on, not a prerelease of
    [0.1.0], or when it is a prerelease of [1.0.0]; build metadata plays no
    part.  Every other version raises the version exception. *)
Theorem version_check_accepts (manifest_version sdk : string)
    (v : VersionInfo) :
  parse manifest_version = Ok v ->
  (version_check manifest_version sdk cmin cmax = Ok tt <-> accepted v)
  /\ (~ accepted v ->
      version_check manifest_version sdk cmin cmax
      = Raise (BehaviorCloudCacheVersionException (estr manifest_version sdk))).
Proof.
  intros Hv. rewrite (version_check_parsed manifest_version sdk v Hv).
  rewrite <- in_window_accepted. pose proof (window_check v) as Hcheck.
  destruct (Semver.lt v vmin || Semver.ge v vmax).
  - assert (Hnot : ~ in_window v) by (rewrite <- Hcheck; discriminate).
    split; [split; [discriminate | tauto] | reflexivity].
  - assert (Hin : in_window v) by now apply Hcheck.
    split; [tauto | intros Hnot; now destruct Hnot].
Qed.

End AcceptedVersions.

(** ** More on fetching a session *)

Section SessionFetchMore.

Variables (self : Api.t) (w : World).

Lemma column_one_row (name : string) (row : DataFrame) (c : cell) :
  Pandas.column name row = Ok [c] -> Pandas.shape0 row = 1%nat.
Proof.
  unfold Pandas.column, Pandas.shape0.
  destruct (Pandas.position name (columns row)); [| discriminate].
  destruct (rows row) as [|r [|r' rest]]; try discriminate. reflexivity.
Qed.

Lemma get_ecephys_session_file (id f : Z) (sessions row : DataFrame) :
  attrs w !! "_ecephys_session_table" = Some sessions ->
  Pandas.query_eq "index" id sessions = Ok row ->
  Pandas.column (CloudCache.file_id_column (Api.cache self)) row
  = Ok [Some f] ->
  Api.get_ecephys_session self id w
  = (data_path <- Api._get_data_path self (pretty f) ;;
     from_nwb_path BehaviorEcephysSession data_path) w.
Proof.
  intros Htable Hrow Hfile.
  rewrite (get_ecephys_session_found self w id sessions row Htable Hrow).
  rewrite (column_one_row _ _ _ Hfile). simpl.
  unfold bind at 1, lift at 1, Api._file_id. now rewrite Hfile.
Qed.

(** X6.  A behavior session and the ecephys session it belongs to are read from
    the same file: [get_behavior_session(b)] and [get_ecephys_session(e)]
    resolve the same file id, and differ only in the class they build. *)
Theorem sessions_share_the_file (b e f : Z)
    (behavior brow sessions erow : DataFrame)
    (index : cell) (values : list cell) :
  attrs w !! "_behavior_session_table" = Some behavior ->
  Pandas.query_eq "behavior_session_id" b behavior = Ok brow ->
  rows brow = [(index, values)] ->
  Pandas.attribute "ecephys_session_id"
    (Pandas.squeeze_row (columns brow) values) = Ok (Some e) ->
  attrs w !! "_ecephys_session_table" = Some sessions ->
  Pandas.query_eq "index" e sessions = Ok erow ->
  Pandas.column (CloudCache.file_id_column (Api.cache self)) erow
  = Ok [Some f] ->
  Api.get_behavior_session self b w
  = (data_path <- Api._get_data_path self (pretty f) ;;
     from_nwb_path BehaviorSession data_path) w
  /\ Api.get_ecephys_session self e w
     = (data_path <- Api._get_data_path self (pretty f) ;;
        from_nwb_path BehaviorEcephysSession data_path) w.
Proof.
  intros Hb Hqb Hrow Hesid Hs Hqs Hfile. split.
  - now apply (get_behavior_session_join self w b e f behavior brow
                 sessions erow index values).
  - now apply (get_ecephys_session_file e f sessions erow).
Qed.

(** X7.  With exactly one matching row, [get_ecephys_session] fails with
    [KeyError] when the table has no column named by the cache's
    [file_id_column], with [ValueError] when the file id of the row is
    missing, and otherwise resolves the file id written in decimal.  The
    two failures change nothing. *)
Theorem get_ecephys_session_file_id (id : Z) (sessions row : DataFrame)
    (index : cell) (values : list cell) :
  attrs w !! "_ecephys_session_table" = Some sessions ->
  Pandas.query_eq "index" id sessions = Ok row ->
  rows row = [(index, values)] ->
  Api.get_ecephys_session self id w
  = match Pandas.position (CloudCache.file_id_column (Api.cache self))
                          (columns row) with
    | None =>
        (Raise (KeyError (CloudCache.file_id_column (Api.cache self))), w)
    | Some k =>
        match Pandas.cell_at values k with
        | None => (Raise (ValueError "cannot convert float NaN to integer"), w)
        | Some f =>
            (data_path <- Api._get_data_path self (pretty f) ;;
             from_nwb_path BehaviorEcephysSession data_path) w
        end
    end.
Proof.
  intros Htable Hrow Hone.
  rewrite (get_ecephys_session_found self w id sessions row Htable Hrow).
  unfold Pandas.shape0. rewrite Hone. simpl.
  unfold bind at 1, lift at 1, Api._file_id, Pandas.column. rewrite Hone.
  destruct (Pandas.position _ (columns row)) as [k|]; [| reflexivity].
  simpl. now destruct (Pandas.cell_at values k).
Qed.

(** X8.  [get_behavior_session] does not count the rows of its second lookup:
    when the [ecephys_session_id] of the behavior row matches no row of the
    ecephys-session table, or several, the call fails in [int(...)] with
    [TypeError], not with the [RuntimeError] of the row-count check. *)
Theorem get_behavior_session_unchecked_join (id e : Z)
    (behavior brow sessions erow : DataFrame)
    (index : cell) (values series : list cell) :
  attrs w !! "_behavior_session_table" = Some behavior ->
  Pandas.query_eq "behavior_session_id" id behavior = Ok brow ->
  rows brow = [(index, values)] ->
  Pandas.attribute "ecephys_session_id"
    (Pandas.squeeze_row (columns brow) values) = Ok (Some e) ->
  attrs w !! "_ecephys_session_table" = Some sessions ->
  Pandas.query_eq "index" e sessions = Ok erow ->
  Pandas.column (CloudCache.file_id_column (Api.cache self)) erow
  = Ok series ->
  Pandas.shape0 erow <> 1%nat ->
  Api.get_behavior_session self id w
  = (Raise (TypeError "cannot convert the series to <class 'int'>"), w).
Proof.
  intros Hb Hqb Hrow Hesid Hs Hqs Hcol Hcount.
  unfold Api.get_behavior_session.
  rewrite (bind_ok _ _ w w behavior (getattr_some _ _ _ Hb)).
  unfold bind at 1, lift at 1. rewrite Hqb, Hrow.
  unfold bind at 1, lift at 1. rewrite Hesid.
  rewrite (bind_ok _ _ w w sessions (getattr_some _ _ _ Hs)).
  unfold bind at 1, lift at 1. rewrite Hqs.
  unfold bind at 1, lift at 1, Api._file_id. rewrite Hcol.
  assert (Hlen : List.length series = Pandas.shape0 erow).
  { revert Hcol. unfold Pandas.column, Pandas.shape0.
    destruct (Pandas.position _ _); [| discriminate].
    intros [= <-]. apply length_map. }
  destruct series as [|[c|] [|c' rest]]; try reflexivity;
    simpl in Hlen; now destruct Hcount.
Qed.

(** X9.  A behavior-session table with a single column besides its index cannot
    be used by [get_behavior_session]: the one matching row squeezes to a
    scalar, and reading [ecephys_session_id] from it raises
    [AttributeError]. *)
Theorem get_behavior_session_single_column (id : Z)
    (behavior brow : DataFrame) (index : cell) (values : list cell)
    (label : string) :
  attrs w !! "_behavior_session_table" = Some behavior ->
  Pandas.query_eq "behavior_session_id" id behavior = Ok brow ->
  rows brow = [(index, values)] ->
  columns brow = [label] ->
  exists msg,
    Api.get_behavior_session self id w = (Raise (AttributeError msg), w).
Proof.
  intros Hb Hqb Hrow Hcols. unfold Api.get_behavior_session.
  rewrite (bind_ok _ _ w w behavior (getattr_some _ _ _ Hb)).
  unfold bind at 1, lift at 1. rewrite Hqb, Hrow, Hcols.
  eexists. reflexivity.
Qed.

(** X10.  In local-only mode the fetch API never calls the download methods
    of its cache: whatever [download_metadata] and [download_data] are,
    [load_manifest] and the two session getters do the same. *)
Theorem local_mode_never_calls_downloads
    (download_metadata download_data : string -> M string)
    (manifest_name : option string) (id : Z) :
  Api._local self = true ->
  Api.load_manifest (with_downloads self download_metadata download_data)
    manifest_name w
  = Api.load_manifest self manifest_name w
  /\ Api.get_ecephys_session
       (with_downloads self download_metadata download_data) id w
     = Api.get_ecephys_session self id w
  /\ Api.get_behavior_session
       (with_downloads self download_metadata download_data) id w
     = Api.get_behavior_session self id w.
Proof.
  destruct self as [cache skip is_local]. simpl. intros ->.
  destruct cache. repeat apply conj; reflexivity.
Qed.

End SessionFetchMore.

(** ** Reading the tables from local storage *)

Section LocalTables.

Variable self : Api.t.
Hypothesis local : Api._local self = true.

Lemma set_index_name (index : string) (df indexed : DataFrame) :
  Pandas.set_index index df = Ok indexed -> index_name indexed = Some index.
Proof.
  unfold Pandas.set_index.
  destruct (Pandas.position index (columns df)); [| discriminate].
  now intros [= <-].
Qed.

(** A table is read from the file the cache points to, and nothing but
    the attribute changes. *)
Lemma local_load_table (fname index attr : string) (w w' : World) :
  Api._load_table self fname index attr w = (Ok tt, w') ->
  exists entry header records df,
    CloudCache.metadata_path (Api.cache self) fname w = Ok entry
    /\ exists_ entry = true
    /\ fs w !! local_path entry = Some (CsvFile header records)
    /\ Pandas.set_index index (frame_of header records) = Ok df
    /\ w' = assigned attr df w.
Proof.
  unfold Api._load_table, Api._get_metadata_path. rewrite local.
  unfold bind at 1. rewrite _get_local_path_fname. unfold path_lookup.
  destruct (CloudCache.metadata_path _ _ _) as [entry | e]; [| discriminate].
  destruct (exists_ entry) eqn:Hexists; [| discriminate].
  unfold bind at 1, Pandas.read_csv.
  destruct (fs w !! local_path entry) as [[header records | content]|] eqn:Hfile;
    try discriminate.
  unfold bind at 1, lift.
  destruct (Pandas.set_index index _) as [df | e] eqn:Hindex; [| discriminate].
  unfold setattr. intros [= <-].
  now exists entry, header, records, df.
Qed.

Lemma local_load_table_failure (fname index attr : string) (w w' : World)
    (e : exn) :
  Api._load_table self fname index attr w = (Raise e, w') -> w' = w.
Proof.
  unfold Api._load_table, Api._get_metadata_path. rewrite local.
  unfold bind at 1. rewrite _get_local_path_fname. unfold path_lookup.
  destruct (CloudCache.metadata_path _ _ _) as [entry | e0];
    [| now intros [= _ <-]].
  destruct (exists_ entry); [| now intros [= _ <-]].
  unfold bind at 1, Pandas.read_csv.
  destruct (fs w !! local_path entry) as [[header records | content]|];
    try (now intros [= _ <-]).
  unfold bind at 1, lift.
  destruct (Pandas.set_index index _) as [df | e0]; [| now intros [= _ <-]].
  unfold setattr. discriminate.
Qed.

Lemma local_load_table_step (fname index attr : string) (w w' : World) :
  Api._load_table self fname index attr w = (Ok tt, w') ->
  exists df, index_name df = Some index /\ w' = assigned attr df w.
Proof.
  intros H. apply local_load_table in H
    as (entry & header & records & df & _ & _ & _ & Hindex & ->).
  exists df. split; [eapply set_index_name, Hindex | reflexivity].
Qed.

Lemma bind_ok_inv {A B} (c : M A) (k : A -> M B) (w w' : World) (b : B) :
  (x <- c ;; k x) w = (Ok b, w') ->
  exists a w1, c w = (Ok a, w1) /\ k a w1 = (Ok b, w').
Proof.
  unfold bind. destruct (c w) as [[a | e] w1]; [| discriminate].
  intros H. now exists a, w1.
Qed.

(** X11.  After a local-only [load_manifest] has read its tables, the five table
    attributes are set, each indexed by its identifier column, so the five
    table getters answer; every other attribute is as before. *)
Theorem local_tables_are_all_set (w w' : World) :
  Api._load_tables self w = (Ok tt, w') ->
  (forall attr index : string,
        In (attr, index) table_attributes ->
        exists df, attrs w' !! attr = Some df /\ index_name df = Some index)
  /\ (forall attr : string,
        ~ In attr (map fst table_attributes) ->
        attrs w' !! attr = attrs w !! attr)
  /\ is_ok (Api.get_ecephys_session_table self w').1 = true
  /\ is_ok (Api.get_behavior_session_table self w').1 = true
  /\ is_ok (Api.get_unit_table self w').1 = true
  /\ is_ok (Api.get_probe_table self w').1 = true
  /\ is_ok (Api.get_channel_table self w').1 = true.
Proof.
  unfold Api._load_tables. intros H.
  apply bind_ok_inv in H as ([] & wa & Ha & H).
  apply bind_ok_inv in H as ([] & wb & Hb & H).
  apply bind_ok_inv in H as ([] & wc & Hc & H).
  apply bind_ok_inv in H as ([] & wd & Hd & H).
  apply local_load_table_step in Ha as (dfa & Hia & ->).
  apply local_load_table_step in Hb as (dfb & Hib & ->).
  apply local_load_table_step in Hc as (dfc & Hic & ->).
  apply local_load_table_step in Hd as (dfd & Hid & ->).
  apply local_load_table_step in H as (dfe & Hie & ->).
  assert (Hset : forall attr index : string,
            In (attr, index) table_attributes ->
            exists df,
              attrs (assigned "_channel_table" dfe
                       (assigned "_probe_table" dfd
                          (assigned "_unit_table" dfc
                             (assigned "_behavior_session_table" dfb
                                (assigned "_ecephys_session_table" dfa w)))))
                !! attr = Some df
              /\ index_name df = Some index).
  { intros attr index Hin. simpl in Hin.
    destruct Hin as [[= <- <-] | [[= <- <-] | [[= <- <-] | [[= <- <-]
                    | [[= <- <-] | []]]]]]; simpl;
      [exists dfa | exists dfb | exists dfc | exists dfd | exists dfe];
      (split; [| assumption]); by simplify_map_eq. }
  split; [exact Hset |]. split.
  - intros attr Hnot. simpl in *.
    rewrite !lookup_insert_ne; [reflexivity | | | | |];
      intros <-; apply Hnot; tauto.
  - unfold Api.get_ecephys_session_table, Api.get_behavior_session_table,
      Api.get_unit_table, Api.get_probe_table, Api.get_channel_table.
    repeat apply conj.
    + destruct (Hset _ _ (or_introl eq_refl)) as (df & Hdf & _).
      now rewrite (getattr_some _ _ _ Hdf).
    + destruct (Hset "_behavior_session_table" "behavior_session_id")
        as (df & Hdf & _); [simpl; tauto |].
      now rewrite (getattr_some _ _ _ Hdf).
    + destruct (Hset "_unit_table" "unit_id") as (df & Hdf & _);
        [simpl; tauto |].
      now rewrite (getattr_some _ _ _ Hdf).
    + destruct (Hset "_probe_table" "ecephys_probe_id") as (df & Hdf & _);
        [simpl; tauto |].
      now rewrite (getattr_some _ _ _ Hdf).
    + destruct (Hset "_channel_table" "ecephys_channel_id") as (df & Hdf & _);
        [simpl; tauto |].
      now rewrite (getattr_some _ _ _ Hdf).
Qed.

(** X12.  [load_manifest] does not roll back: when the sessions table has been
    read and the behavior-sessions table cannot be, the call fails and the
    fetch API is left with the new sessions table beside the tables it had
    before. *)
Theorem local_tables_are_not_rolled_back (w wa wb : World) (e : exn) :
  Api._get_ecephys_session_table self w = (Ok tt, wa) ->
  Api._get_behavior_session_table self wa = (Raise e, wb) ->
  Api._load_tables self w = (Raise e, wb)
  /\ wb = wa
  /\ exists entry header records df,
       CloudCache.metadata_path (Api.cache self) "sessions" w = Ok entry
       /\ fs w !! local_path entry = Some (CsvFile header records)
       /\ Pandas.set_index "ecephys_session_id" (frame_of header records)
          = Ok df
       /\ wa = assigned "_ecephys_session_table" df w
       /\ (forall attr : string,
             attr <> "_ecephys_session_table" ->
             attrs wa !! attr = attrs w !! attr).
Proof.
  intros Ha Hb. split; [| split].
  - unfold Api._load_tables. rewrite (bind_ok _ _ w wa tt Ha).
    unfold bind at 1. now rewrite Hb.
  - exact (local_load_table_failure _ _ _ _ _ _ Hb).
  - apply local_load_table in Ha
      as (entry & header & records & df & Hentry & _ & Hfile & Hindex & ->).
    exists entry, header, records, df. repeat apply conj; try assumption.
    + reflexivity.
    + intros attr Hne. simpl. now rewrite lookup_insert_ne.
Qed.

End LocalTables.

(** ** Probes from JSON *)

Section ProbesFromJson.

Import Probes.

Variable Probe : Type.
Variable Probe_from_json : gmap string string -> result Probe.

Lemma comprehension_Forall2 {A B} (f : A -> result B) (xs : list A)
    (ys : list B) :
  comprehension f xs = Ok ys -> Forall2 (fun x y => f x = Ok y) xs ys.
Proof.
  revert ys. induction xs as [|x xs IH]; intros ys; simpl.
  - intros [= <-]. constructor.
  - destruct (f x) as [y | e] eqn:Hx; [| discriminate].
    destruct (comprehension f xs) as [ys' | e]; [| discriminate].
    intros [= <-]. constructor; [exact Hx | now apply IH].
Qed.

Lemma comprehension_names (probes : list (gmap string string))
    (names : list string) :
  comprehension name probes = Ok names -> names = map key probes.
Proof.
  intros H. apply comprehension_Forall2 in H.
  induction H as [|p n probes names Hp _ IH]; [reflexivity |].
  simpl. rewrite IH. f_equal. revert Hp. unfold name, key.
  destruct (p !! "name"); [now intros [= <-] | discriminate].
Qed.

Lemma insert_by_name_perm (p : gmap string string)
    (l : list (gmap string string)) :
  insert_by_name p l ≡ₚ p :: l.
Proof.
  induction l as [|q l IH]; simpl; [reflexivity |].
  destruct (String.ltb (key q) (key p)); [| reflexivity].
  rewrite IH. apply Permutation_swap.
Qed.

Lemma sorted_by_name_perm (l : list (gmap string string)) :
  sorted_by_name l ≡ₚ l.
Proof.
  induction l as [|p l IH]; simpl; [reflexivity |].
  rewrite insert_by_name_perm. now rewrite IH.
Qed.

Lemma ltb_true_le (a b : string) : String.ltb a b = true -> String.leb a b = true.
Proof.
  unfold String.ltb, String.leb. now destruct (String.compare a b).
Qed.

Lemma ltb_false_le (a b : string) : String.ltb a b = false -> String.leb b a = true.
Proof.
  unfold String.ltb, String.leb. rewrite (String.compare_antisym b a).
  now destruct (String.compare a b).
Qed.

Lemma insert_by_name_sorted (p : gmap string string)
    (l : list (gmap string string)) :
  Sorted name_le l -> Sorted name_le (insert_by_name p l).
Proof.
  induction 1 as [|q l Hl IH Hhd]; simpl.
  - repeat constructor.
  - destruct (String.ltb (key q) (key p)) eqn:E.
    + constructor; [exact IH |].
      destruct l as [|r l]; simpl.
      * constructor. now apply ltb_true_le.
      * destruct (String.ltb (key r) (key p));
          constructor; [now inversion Hhd | now apply ltb_true_le].
    + constructor; [now constructor |].
      constructor. now apply ltb_false_le.
Qed.

Lemma sorted_by_name_sorted (l : list (gmap string string)) :
  Sorted name_le (sorted_by_name l).
Proof.
  induction l as [|p l IH]; simpl; [constructor |].
  now apply insert_by_name_sorted.
Qed.

Lemma ltb_irrefl_key (a b : string) :
  String.ltb a b = true -> String.eqb a b = false.
Proof.
  unfold String.ltb. destruct (String.eqb_spec a b) as [-> | Hne];
    [| reflexivity].
  assert (String.compare b b = Eq) as ->; [| discriminate].
  pose proof (String.compare_antisym b b) as H.
  destruct (String.compare b b); [reflexivity | discriminate | discriminate].
Qed.

(** The sort is stable: probes of one name keep their order. *)
Lemma insert_by_name_named (k : string) (p : gmap string string)
    (l : list (gmap string string)) :
  named k (insert_by_name p l) = named k (p :: l).
Proof.
  unfold named. induction l as [|q l IH]; [reflexivity |]. simpl.
  destruct (String.ltb (key q) (key p)) eqn:E; [| reflexivity].
  simpl. rewrite IH. simpl.
  destruct (String.eqb (key p) k) eqn:Ep; [| reflexivity].
  apply String.eqb_eq in Ep. subst k.
  now rewrite (ltb_irrefl_key _ _ E).
Qed.

Lemma sorted_by_name_named (k : string) (l : list (gmap string string)) :
  named k (sorted_by_name l) = named k l.
Proof.
  induction l as [|p l IH]; [reflexivity |]. simpl.
  rewrite insert_by_name_named. unfold named in *. simpl. now rewrite IH.
Qed.

Lemma from_json_valid (probes : list (gmap string string))
    (skip : option (list string)) (names : list string) :
  comprehension name probes = Ok names ->
  from_json Probe Probe_from_json probes skip
  = if bool_decide ((list_to_set (default [] skip) ∖ list_to_set names
                     : gset string) <> ∅)
    then Raise (ValueError
                  ("You passed invalid probes to skip: "
                   +:+ Api.set_repr (list_to_set (default [] skip)
                                       ∖ list_to_set names)
                   +:+ " are not valid probe names"))
    else comprehension Probe_from_json
           (sorted_by_name (not_skipped (default [] skip) probes)).
Proof. intros H. unfold from_json. now rewrite H. Qed.

(** X15.  What [Probes.from_json] builds: the probes whose name is not skipped,
    each converted by [Probe.from_json], in the order of their names;
    probes of one name keep the order of the input.  Every name to skip is
    then the name of a probe. *)
Theorem from_json_selects_and_sorts (probes : list (gmap string string))
    (skip : option (list string)) (built : list Probe) :
  from_json Probe Probe_from_json probes skip = Ok built ->
  exists sorted : list (gmap string string),
    Forall2 (fun p b => Probe_from_json p = Ok b) sorted built
    /\ Sorted name_le sorted
    /\ sorted ≡ₚ not_skipped (default [] skip) probes
    /\ (forall k, named k sorted
                  = named k (not_skipped (default [] skip) probes))
    /\ Forall (fun p => key p ∉ default [] skip) sorted
    /\ (forall s, s ∈ default [] skip ->
                  exists p, p ∈ probes /\ p !! "name" = Some s).
Proof.
  intros H.
  destruct (comprehension name probes) as [names | e] eqn:Hnames;
    [| unfold from_json in H; now rewrite Hnames in H].
  rewrite (from_json_valid probes skip names Hnames) in H.
  destruct (bool_decide _) eqn:Hvalid; [discriminate |].
  apply bool_decide_eq_false in Hvalid.
  exists (sorted_by_name (not_skipped (default [] skip) probes)).
  split; [now apply comprehension_Forall2 |].
  split; [apply sorted_by_name_sorted |].
  split; [apply sorted_by_name_perm |].
  split; [intros k; apply sorted_by_name_named |]. split.
  - rewrite sorted_by_name_perm. unfold not_skipped.
    apply List.Forall_forall. intros p Hp.
    apply List.filter_In in Hp as [_ Hp].
    apply negb_true_iff, bool_decide_eq_false in Hp. exact Hp.
  - intros s Hs.
    assert (Hin : s ∈ names).
    { destruct (decide (s ∈ names)) as [|Hnot]; [assumption |].
      destruct Hvalid. intros Hempty.
      assert (Hs' : s ∈ (list_to_set (default [] skip) ∖ list_to_set names
                         : gset string)) by set_solver.
      rewrite Hempty in Hs'. set_solver. }
    apply comprehension_Forall2 in Hnames. clear -Hin Hnames.
    induction Hnames as [|p n probes names Hp _ IH];
      [now apply elem_of_nil in Hin |].
    apply elem_of_cons in Hin as [-> | Hin].
    + exists p. split; [apply elem_of_cons; now left |].
      revert Hp. unfold name. destruct (p !! "name"); [now intros [= ->] | discriminate].
    + destruct (IH Hin) as (q & Hq & Hname).
      exists q. split; [apply elem_of_cons; now right | exact Hname].
Qed.

(** X16.  When every probe has a name, a name to skip that no probe has
    makes [Probes.from_json] fail with [ValueError], whatever
    [Probe.from_json] would do: no probe is converted. *)
Theorem from_json_rejects_unknown_skip (probes : list (gmap string string))
    (skip names : list string) (s : string) :
  comprehension name probes = Ok names ->
  s ∈ skip ->
  s ∉ names ->
  exists msg,
    from_json Probe Probe_from_json probes (Some skip)
    = Raise (ValueError msg)
    /\ occurs_in "You passed invalid probes to skip: " msg
    /\ occurs_in "are not valid probe names" msg.
Proof.
  intros Hnames Hs Hnot.
  rewrite (from_json_valid probes (Some skip) names Hnames). simpl default.
  rewrite bool_decide_eq_true_2 by set_solver.
  eexists. split; [reflexivity |]. split.
  - apply occurs_in_head.
  - do 2 apply occurs_in_prefix.
    exists " ", EmptyString. reflexivity.
Qed.

End ProbesFromJson.

(** ** Running speed to and from JSON *)

Section RunningSpeedJson.

Import VBNRunningSpeed.

Lemma length_append (a b : string) :
  String.length (a +:+ b) = (String.length a + String.length b)%nat.
Proof.
  induction a as [|c a IH]; [reflexivity |].
  change (S (String.length (a +:+ b))
          = S (String.length a + String.length b)). now rewrite IH.
Qed.

Lemma to_json_files_complaints (files : list (Json * string)) (msg : string)
    (output : gmap string Json) :
  (to_json_files files msg output).1 = msg +:+ complaints files.
Proof.
  revert msg output. induction files as [|[value key] rest IH];
    intros msg output; simpl.
  - clear. induction msg as [|c msg IH]; [reflexivity |].
    change (String c msg = String c (msg +:+ EmptyString)). now f_equal.
  - rewrite IH. destruct value; try reflexivity. apply append_assoc.
Qed.

Lemma complaints_none (files : list (Json * string)) :
  Forall (fun vk => vk.1 <> JNone) files -> complaints files = EmptyString.
Proof.
  induction 1 as [|[value key] rest Hv _ IH]; [reflexivity |].
  simpl in *. now destruct value.
Qed.

Lemma complaints_some (files : list (Json * string)) (key : string) :
  In (JNone, key) files ->
  occurs_in (complaint key) (complaints files)
  /\ (0 < String.length (complaints files))%nat.
Proof.
  induction files as [|[value k] rest IH]; [intros [] |].
  intros [[= -> ->] | Hin].
  - simpl. split; [apply occurs_in_head |].
    rewrite length_append. unfold complaint. rewrite length_append.
    simpl. lia.
  - destruct (IH Hin) as [Hocc Hlen]. simpl.
    destruct value; try (split; assumption).
    split; [now apply occurs_in_prefix |].
    rewrite length_append. lia.
Qed.

Lemma files_dec (files : list (Json * string)) :
  Forall (fun vk => vk.1 <> JNone) files
  \/ exists key, In (JNone, key) files.
Proof.
  induction files as [|[value key] rest [IH | [k IH]]].
  - left. constructor.
  - destruct value; try (left; constructor; [discriminate | assumption]).
    right. exists key. now left.
  - right. exists k. now right.
Qed.

Lemma to_json_message (self : t) :
  to_json self
  = if (0 <? String.length (complaints (files_of self)))%nat
    then Raise (RuntimeError (complaints (files_of self)))
    else Ok (written self).
Proof.
  unfold to_json.
  pose proof (to_json_files_complaints (files_of self) EmptyString ∅) as Hmsg.
  unfold files_of in *.
  destruct (to_json_files _ _ _) as [msg output] eqn:Hfiles.
  simpl in Hmsg. subst msg.
  assert (output
          = <["replay_stimulus_file" := _replay_stimulus_file self]>
              (<["mapping_stimulus_file" := _mapping_stimulus_file self]>
                 (<["behavior_stimulus_file" := _behavior_stimulus_file self]>
                    (<["sync_file" := _sync_file self]> ∅)))) as ->.
  { simpl in Hfiles.
    destruct (_sync_file self), (_behavior_stimulus_file self),
      (_mapping_stimulus_file self), (_replay_stimulus_file self);
      now inversion Hfiles. }
  reflexivity.
Qed.

Lemma to_json_written (self : t) :
  Forall (fun vk => vk.1 <> JNone) (files_of self) ->
  to_json self = Ok (written self).
Proof.
  intros Hall. rewrite to_json_message.
  now rewrite (complaints_none _ Hall).
Qed.

(** X17.  [to_json] needs the four files: it answers exactly when none of them is
    [None], with the four files and the three settings, and otherwise
    raises a [RuntimeError] whose message has a sentence for every file
    that is [None]. *)
Theorem to_json_needs_the_four_files (self : t) :
  (is_ok (to_json self) = true
   <-> Forall (fun vk => vk.1 <> JNone) (files_of self))
  /\ (Forall (fun vk => vk.1 <> JNone) (files_of self) ->
      to_json self = Ok (written self))
  /\ (forall key : string,
        In (JNone, key) (files_of self) ->
        exists msg,
          to_json self = Raise (RuntimeError msg)
          /\ occurs_in (complaint key) msg).
Proof.
  rewrite to_json_message.
  destruct (files_dec (files_of self)) as [Hall | [k Hk]].
  - rewrite (complaints_none _ Hall). simpl. split; [tauto |].
    split; [reflexivity |].
    intros key Hin. exfalso.
    apply List.Forall_forall with (x := (JNone, key)) in Hall;
      [now apply Hall | exact Hin].
  - destruct (complaints_some _ _ Hk) as [_ Hlen].
    apply Nat.ltb_lt in Hlen. rewrite Hlen.
    assert (Hnot : ~ Forall (fun vk : Json * string => vk.1 <> JNone)
                            (files_of self)).
    { intros Hall.
      apply List.Forall_forall with (x := (JNone, k)) in Hall;
        [now apply Hall | exact Hk]. }
    split; [split; [discriminate | tauto] |].
    split; [tauto |].
    intros key Hin. eexists. split; [reflexivity |].
    apply (complaints_some _ _ Hin).
Qed.

Section WithProcessing.

Variable multi_stim_running_df_from_raw_data :
  Json -> Json -> Json -> Json -> Json -> Json -> Z
  -> result (list (float * float)).

Lemma from_json_fields (dict_repr : gmap string Json) (self : t) :
  from_json multi_stim_running_df_from_raw_data dict_repr = Ok self ->
  dict_repr !! "sync_file" = Some (_sync_file self)
  /\ dict_repr !! "behavior_stimulus_file"
     = Some (_behavior_stimulus_file self)
  /\ dict_repr !! "mapping_stimulus_file"
     = Some (_mapping_stimulus_file self)
  /\ dict_repr !! "replay_stimulus_file" = Some (_replay_stimulus_file self)
  /\ _use_lowpass_filter self
     = default (JBool true) (dict_repr !! "use_lowpass_filter")
  /\ _zscore_threshold self
     = default (JFloat {| literal := "10.0" |})
               (dict_repr !! "zscore_threshold")
  /\ _filtered self = JBool false
  /\ multi_stim_running_df_from_raw_data
       (_sync_file self) (_behavior_stimulus_file self)
       (_mapping_stimulus_file self) (_replay_stimulus_file self)
       (_use_lowpass_filter self) (_zscore_threshold self) 0
     = Ok (value self).
Proof.
  unfold from_json, item, _get_multi_stim_running_df.
  destruct (dict_repr !! "behavior_stimulus_file") as [b|]; [| discriminate].
  destruct (dict_repr !! "replay_stimulus_file") as [r|]; [| discriminate].
  destruct (dict_repr !! "mapping_stimulus_file") as [m|]; [| discriminate].
  destruct (dict_repr !! "sync_file") as [sy|]; [| discriminate].
  destruct (multi_stim_running_df_from_raw_data _ _ _ _ _ _ _) as [df | e]
    eqn:Hdf; [| discriminate].
  intros [= <-]. simpl. repeat apply conj; try reflexivity. exact Hdf.
Qed.

(** X18.  Reading a running speed from JSON and writing it back: when none of
    the four files of the dictionary is [None], [to_json] answers with the
    four files as they were read, the two settings as they were read or at
    their defaults ([True] and [10.0]), and [filtered] false; any other key
    of the dictionary is gone. *)
Theorem to_json_after_from_json (dict_repr : gmap string Json) (self : t) :
  from_json multi_stim_running_df_from_raw_data dict_repr = Ok self ->
  Forall (fun key => dict_repr !! key <> Some JNone) file_keys ->
  exists output,
    to_json self = Ok output
    /\ Forall (fun key => output !! key = dict_repr !! key) file_keys
    /\ output !! "use_lowpass_filter"
       = Some (default (JBool true) (dict_repr !! "use_lowpass_filter"))
    /\ output !! "zscore_threshold"
       = Some (default (JFloat {| literal := "10.0" |})
                       (dict_repr !! "zscore_threshold"))
    /\ output !! "filtered" = Some (JBool false)
    /\ dom output
       = list_to_set (file_keys ++ ["use_lowpass_filter"; "zscore_threshold";
                                    "filtered"]).
Proof.
  intros Hread Hfiles.
  destruct (from_json_fields _ _ Hread)
    as (Hs & Hb & Hm & Hr & Hl & Hz & Hf & _).
  exists (written self).
  assert (Hno : Forall (fun vk => vk.1 <> JNone) (files_of self)).
  { unfold file_keys in Hfiles.
    inversion Hfiles as [|? ? H1 Hfiles1]; subst.
    inversion Hfiles1 as [|? ? H2 Hfiles2]; subst.
    inversion Hfiles2 as [|? ? H3 Hfiles3]; subst.
    inversion Hfiles3 as [|? ? H4 _]; subst.
    unfold files_of. repeat constructor; simpl; congruence. }
  split; [now apply to_json_written |].
  unfold written, file_keys. split.
  - repeat constructor; simplify_map_eq; congruence.
  - repeat apply conj; simplify_map_eq; try congruence.
    rewrite !dom_insert_L, dom_empty_L. set_solver.
Qed.

(** X19.  Writing a running speed to JSON and reading it back gives the files
    and the two settings that were written, the running speed computed
    again from them, and [filtered] false: [from_json] never reads
    [filtered]. *)
Theorem from_json_after_to_json (self : t) (output : gmap string Json)
    (df : RunningSpeed) :
  to_json self = Ok output ->
  multi_stim_running_df_from_raw_data
    (_sync_file self) (_behavior_stimulus_file self)
    (_mapping_stimulus_file self) (_replay_stimulus_file self)
    (_use_lowpass_filter self) (_zscore_threshold self) 0 = Ok df ->
  from_json multi_stim_running_df_from_raw_data output
  = Ok {| value := df;
          _sync_file := _sync_file self;
          _behavior_stimulus_file := _behavior_stimulus_file self;
          _replay_stimulus_file := _replay_stimulus_file self;
          _mapping_stimulus_file := _mapping_stimulus_file self;
          _use_lowpass_filter := _use_lowpass_filter self;
          _zscore_threshold := _zscore_threshold self;
          _filtered := JBool false |}.
Proof.
  intros Hwrite Hdf. rewrite to_json_message in Hwrite.
  destruct (0 <? _)%nat; [discriminate |]. injection Hwrite as <-.
  unfold from_json, item, written, _get_multi_stim_running_df.
  simplify_map_eq. rewrite Hdf. reflexivity.
Qed.

End WithProcessing.

End RunningSpeedJson.

(** ** Constructing the cache *)

(** X14.  The two constructors of the fetch API and of the facade always check
    the version: over a cache whose last manifest has the five categories
    and names its AllenSDK release, but declares a version outside the
    window, none of them returns an object; each raises the version
    exception and reads no table. *)
Theorem constructors_check_the_version (cache : CloudCache.t) (w w1 : World)
    (names : list string) (sdk : string) (v : Semver.VersionInfo) :
  CloudCache.load_last_manifest cache w = (Ok tt, w1) ->
  metadata_file_names (_manifest w1) = Some names ->
  (list_to_set names : gset string) = Api.expected_metadata ->
  Api.data_sdk_version (_data_pipeline (_manifest w1)) = Ok sdk ->
  Semver.parse (version (_manifest w1)) = Ok v ->
  ~ in_window v ->
  Api.from_local_cache cache w
  = (Raise (BehaviorCloudCacheVersionException
              (estr (version (_manifest w1)) sdk)), w1)
  /\ Api.from_s3_cache cache w
     = (Raise (BehaviorCloudCacheVersionException
                 (estr (version (_manifest w1)) sdk)), w1)
  /\ Facade.from_local_cache cache w
     = (Raise (BehaviorCloudCacheVersionException
                 (estr (version (_manifest w1)) sdk)), w1)
  /\ Facade.from_s3_cache cache w
     = (Raise (BehaviorCloudCacheVersionException
                 (estr (version (_manifest w1)) sdk)), w1).
Proof.
  intros Hload Hnames Hset Hsdk Hv Hnot.
  assert (Hout : Semver.lt v vmin || Semver.ge v vmax = true).
  { destruct (Semver.lt v vmin || Semver.ge v vmax) eqn:E; [reflexivity |].
    destruct Hnot. now apply window_check. }
  assert (Hfail : forall is_local : bool,
            Api.load_manifest
              {| Api.cache := cache; Api.skip_version_check := false;
                 Api._local := is_local |} None w
            = (Raise (BehaviorCloudCacheVersionException
                        (estr (version (_manifest w1)) sdk)), w1)).
  { intros is_local.
    rewrite (load_manifest_checked
               {| Api.cache := cache; Api.skip_version_check := false;
                  Api._local := is_local |} None w w1 names sdk v eq_refl
               Hload Hnames Hset Hsdk Hv).
    now rewrite Hout. }
  unfold Facade.from_local_cache, Facade.from_s3_cache,
    Api.from_local_cache, Api.from_s3_cache, Api.__init__.
  repeat apply conj; unfold bind; now rewrite Hfail.
Qed.

(** ** The further statements at concrete inputs *)

Lemma data_sdk_version_reads_first_entry_witness :
  Api.data_sdk_version Sample.pipeline = Ok "2.13.4".
Proof.
  assert (H1 : Forall (fun i : gmap string string =>
                         exists name, i !! "name" = Some name
                                      /\ name <> "AllenSDK")
                      [ ({[ "name" := "pynwb"; "version" := "2.2.0" ]}
                         : gmap string string) ]).
  { constructor; [| constructor].
    exists "pynwb". split; [vm_compute; reflexivity | discriminate]. }
  assert (H2 : ({[ "name" := "AllenSDK"; "version" := "2.13.4" ]}
                : gmap string string) !! "name" = Some "AllenSDK")
    by (vm_compute; reflexivity).
  assert (H3 : Forall (fun i : gmap string string => is_Some (i !! "name"))
                      [ ({[ "name" := "AllenSDK"; "version" := "1.0.0" ]}
                         : gmap string string) ]).
  { constructor; [| constructor]. exists "AllenSDK". vm_compute. reflexivity. }
  pose proof (data_sdk_version_reads_first_entry _ _ _ H1 H2 H3) as H.
  etransitivity; [exact H |]. vm_compute. reflexivity.
Defined.

Lemma load_manifest_skipping_ignores_version_witness :
  (Api.skip_version_check Sample.skipping = true
   /\ is_ok (Semver.parse "release-2") = false)
  /\ Api.load_manifest Sample.skipping None (Fixture.world Fixture.files)
     = Api._load_tables Sample.skipping
         (Fixture.activated Fixture.five "release-2")
  /\ is_ok (Api.load_manifest Sample.skipping None
              (Fixture.world Fixture.files)).1 = true.
Proof.
  assert (H : Api.load_manifest Sample.skipping None
                (Fixture.world Fixture.files)
              = Api._load_tables Sample.skipping
                  (Fixture.activated Fixture.five "release-2")).
  { apply (load_manifest_skipping_ignores_version Sample.skipping None
             (Fixture.world Fixture.files)
             (Fixture.activated Fixture.five "release-2") Fixture.five);
      reflexivity. }
  split; [split; reflexivity |]. split; [exact H |].
  rewrite H. vm_compute. reflexivity.
Defined.

Lemma load_manifest_fails_before_the_window_witness :
  Forall (fun i : gmap string string =>
            exists n, i !! "name" = Some n /\ n <> "AllenSDK")
         (_data_pipeline Sample.unnamed_sdk)
  /\ Api.load_manifest Sample.unnamed_sdk_api None
       (Fixture.world Fixture.files)
     = (Raise (IndexError "list index out of range"),
        Sample.unnamed_sdk_loaded).
Proof.
  assert (H : Forall (fun i : gmap string string =>
                        exists n, i !! "name" = Some n /\ n <> "AllenSDK")
                     (_data_pipeline Sample.unnamed_sdk)).
  { constructor; [| constructor].
    exists "pynwb". split; [vm_compute; reflexivity | discriminate]. }
  split; [exact H |].
  destruct (load_manifest_fails_before_the_window Sample.unnamed_sdk_api None
              (Fixture.world Fixture.files) Sample.unnamed_sdk_loaded
              Fixture.five eq_refl eq_refl eq_refl eq_refl) as (Hindex & _).
  exact (Hindex H).
Defined.

Lemma version_check_accepts_witness :
  Semver.parse "1.0.0-rc.1" = Ok Sample.release_candidate
  /\ accepted Sample.release_candidate
  /\ version_check "1.0.0-rc.1" "2.13.4" cmin cmax = Ok tt.
Proof.
  assert (H : Semver.parse "1.0.0-rc.1" = Ok Sample.release_candidate)
    by reflexivity.
  assert (Ha : accepted Sample.release_candidate).
  { right. repeat apply conj; reflexivity. }
  destruct (version_check_accepts "1.0.0-rc.1" "2.13.4"
              Sample.release_candidate H) as [Hiff _].
  repeat apply conj; try assumption. now apply Hiff.
Defined.

Lemma sessions_share_the_file_witness :
  Api.get_behavior_session Fixture.local 5 Fixture.started
  = (data_path <- Api._get_data_path Fixture.local "99" ;;
     from_nwb_path BehaviorSession data_path) Fixture.started
  /\ Api.get_ecephys_session Fixture.local 10 Fixture.started
     = (data_path <- Api._get_data_path Fixture.local "99" ;;
        from_nwb_path BehaviorEcephysSession data_path) Fixture.started.
Proof.
  apply (sessions_share_the_file Fixture.local Fixture.started 5 10 99
           wide_behavior_sessions wide_behavior_sessions
           scenario_sessions scenario_sessions (Some 5) [Some 10; Some 7]);
    try reflexivity; vm_compute; reflexivity.
Defined.

Lemma get_ecephys_session_file_id_witness :
  Api.get_ecephys_session Fixture.local 10 Fixture.started
  = (Ok (BehaviorEcephysSession "session 10"), Fixture.started).
Proof.
  assert (H1 : attrs Fixture.started !! "_ecephys_session_table"
               = Some scenario_sessions) by (vm_compute; reflexivity).
  rewrite (get_ecephys_session_file_id Fixture.local Fixture.started 10
             scenario_sessions scenario_sessions (Some 10) [Some 99]
             H1 eq_refl eq_refl).
  vm_compute. reflexivity.
Defined.

Lemma get_behavior_session_unchecked_join_witness :
  Pandas.shape0 Sample.duplicated_sessions = 2%nat
  /\ Api.get_behavior_session Fixture.local 5 Fixture.duplicated
     = (Raise (TypeError "cannot convert the series to <class 'int'>"),
        Fixture.duplicated).
Proof.
  split; [reflexivity |].
  apply (get_behavior_session_unchecked_join Fixture.local Fixture.duplicated
           5 10 wide_behavior_sessions wide_behavior_sessions
           Sample.duplicated_sessions Sample.duplicated_sessions
           (Some 5) [Some 10; Some 7] [Some 99; Some 99]);
    try reflexivity; try discriminate; vm_compute; reflexivity.
Defined.

Lemma get_behavior_session_single_column_witness :
  columns Sample.narrow_behavior_sessions = ["ecephys_session_id"]
  /\ exists msg,
       Api.get_behavior_session Fixture.local 5 Sample.narrow
       = (Raise (AttributeError msg), Sample.narrow).
Proof.
  split; [reflexivity |].
  apply (get_behavior_session_single_column Fixture.local Sample.narrow 5
           Sample.narrow_behavior_sessions Sample.narrow_behavior_sessions
           (Some 5) [Some 10] "ecephys_session_id");
    try reflexivity; vm_compute; reflexivity.
Defined.

Lemma local_mode_never_calls_downloads_witness :
  Api._local Fixture.local = true
  /\ Api.get_ecephys_session
       (with_downloads Fixture.local (Fixture.download Fixture.flaky)
          (Fixture.download Fixture.flaky)) 10 Fixture.started
     = Api.get_ecephys_session Fixture.local 10 Fixture.started
  /\ Api.load_manifest
       (with_downloads Fixture.local (Fixture.download Fixture.flaky)
          (Fixture.download Fixture.flaky)) None
       (Fixture.world Fixture.tables_only)
     = Api.load_manifest Fixture.local None (Fixture.world Fixture.tables_only).
Proof.
  destruct (local_mode_never_calls_downloads Fixture.local Fixture.started
              (Fixture.download Fixture.flaky) (Fixture.download Fixture.flaky)
              None 10 eq_refl) as (_ & Hfetch & _).
  destruct (local_mode_never_calls_downloads Fixture.local
              (Fixture.world Fixture.tables_only)
              (Fixture.download Fixture.flaky) (Fixture.download Fixture.flaky)
              None 10 eq_refl) as (Hload & _).
  split; [reflexivity |]. split; [exact Hfetch | exact Hload].
Defined.

(** A cloud-backed fetch API does call them: with download methods that
    refuse, the session that was read is no longer read. *)
Lemma cloud_mode_calls_downloads :
  Api.get_ecephys_session Fixture.cloud 10 Fixture.started
  = (Ok (BehaviorEcephysSession "session 10"), Fixture.started)
  /\ is_ok (Api.get_ecephys_session
              (with_downloads Fixture.cloud Fixture.no_download
                 Fixture.no_download) 10 Fixture.started).1 = false.
Proof. split; vm_compute; reflexivity. Qed.

Lemma local_tables_are_all_set_witness :
  (Api._local Fixture.local = true
   /\ Api._load_tables Fixture.local (Fixture.activated Fixture.five "0.5.0")
      = (Ok tt, Fixture.started))
  /\ (exists df, attrs Fixture.started !! "_unit_table" = Some df
                 /\ index_name df = Some "unit_id")
  /\ is_ok (Api.get_channel_table Fixture.local Fixture.started).1 = true.
Proof.
  assert (H : Api._load_tables Fixture.local
                (Fixture.activated Fixture.five "0.5.0")
              = (Ok tt, Fixture.started)) by (vm_compute; reflexivity).
  destruct (local_tables_are_all_set Fixture.local eq_refl _ _ H)
    as (Hset & _ & _ & _ & _ & _ & Hchannel).
  repeat apply conj; try assumption; try reflexivity.
  apply Hset. simpl. tauto.
Defined.

Lemma local_tables_are_not_rolled_back_witness :
  (Api._get_ecephys_session_table Fixture.local Sample.sessions_only
   = (Ok tt, assigned "_ecephys_session_table" scenario_sessions
               Sample.sessions_only)
   /\ is_ok (Api._get_behavior_session_table Fixture.local
               (assigned "_ecephys_session_table" scenario_sessions
                  Sample.sessions_only)).1 = false)
  /\ is_ok (Api._load_tables Fixture.local Sample.sessions_only).1 = false
  /\ (Api._load_tables Fixture.local Sample.sessions_only).2
     = assigned "_ecephys_session_table" scenario_sessions
         Sample.sessions_only.
Proof.
  assert (H1 : Api._get_ecephys_session_table Fixture.local
                 Sample.sessions_only
               = (Ok tt, assigned "_ecephys_session_table" scenario_sessions
                           Sample.sessions_only))
    by (vm_compute; reflexivity).
  assert (H2 : Api._get_behavior_session_table Fixture.local
                 (assigned "_ecephys_session_table" scenario_sessions
                    Sample.sessions_only)
               = (Raise (FileNotFoundError
                           ("You started a cache without a connection to s3 "
                            +:+ "and /cache/behavior_sessions.csv is not "
                            +:+ "already on your system")),
                  assigned "_ecephys_session_table" scenario_sessions
                    Sample.sessions_only))
    by (vm_compute; reflexivity).
  destruct (local_tables_are_not_rolled_back Fixture.local eq_refl _ _ _ _
              H1 H2) as (Hfail & _ & _).
  repeat apply conj; try exact H1; try (now rewrite H2); now rewrite Hfail.
Defined.

Lemma constructors_check_the_version_witness :
  (CloudCache.load_last_manifest Sample.too_new (Fixture.world Fixture.files)
   = (Ok tt, Fixture.activated Fixture.five "1.0.0")
   /\ ~ in_window vmax)
  /\ is_ok (Facade.from_local_cache Sample.too_new
              (Fixture.world Fixture.files)).1 = false.
Proof.
  assert (H1 : ~ in_window vmax) by (intros [_ H]; discriminate H).
  destruct (constructors_check_the_version Sample.too_new
              (Fixture.world Fixture.files)
              (Fixture.activated Fixture.five "1.0.0") Fixture.five
              "2.13.4" vmax eq_refl eq_refl eq_refl
              ltac:(vm_compute; reflexivity) eq_refl H1)
    as (_ & _ & Hfacade & _).
  split; [split; [reflexivity | exact H1] |]. now rewrite Hfacade.
Defined.

Lemma from_json_selects_and_sorts_witness :
  Probes.from_json string Sample.probe_id Sample.probes (Some ["probeC"])
  = Ok ["1"; "2"]
  /\ exists sorted : list (gmap string string),
       Forall2 (fun p b => Sample.probe_id p = Ok b) sorted ["1"; "2"]
       /\ Sorted name_le sorted
       /\ sorted ≡ₚ not_skipped ["probeC"] Sample.probes.
Proof.
  assert (H : Probes.from_json string Sample.probe_id Sample.probes
                (Some ["probeC"]) = Ok ["1"; "2"])
    by (vm_compute; reflexivity).
  split; [exact H |].
  destruct (from_json_selects_and_sorts string Sample.probe_id Sample.probes
              (Some ["probeC"]) ["1"; "2"] H)
    as (sorted & H1 & H2 & H3 & _).
  now exists sorted.
Defined.

Lemma from_json_rejects_unknown_skip_witness :
  Probes.comprehension Probes.name Sample.probes
  = Ok ["probeB"; "probeC"; "probeA"]
  /\ exists msg,
       Probes.from_json string Sample.probe_id Sample.probes
         (Some ["probeA"; "probeZ"]) = Raise (ValueError msg)
       /\ occurs_in "You passed invalid probes to skip: " msg.
Proof.
  assert (H1 : Probes.comprehension Probes.name Sample.probes
               = Ok ["probeB"; "probeC"; "probeA"])
    by (vm_compute; reflexivity).
  assert (H2 : "probeZ" ∈ ["probeA"; "probeZ"])
    by (apply (bool_decide_unpack ("probeZ" ∈ ["probeA"; "probeZ"]));
        vm_compute; exact I).
  assert (H3 : "probeZ" ∉ ["probeB"; "probeC"; "probeA"])
    by (apply (bool_decide_unpack
                 ("probeZ" ∉ ["probeB"; "probeC"; "probeA"]));
        vm_compute; exact I).
  destruct (from_json_rejects_unknown_skip string Sample.probe_id
              Sample.probes ["probeA"; "probeZ"] _ "probeZ" H1 H2 H3)
    as (msg & Hmsg & Hocc & _).
  split; [exact H1 |]. now exists msg.
Defined.

Lemma to_json_after_from_json_witness :
  VBNRunningSpeed.from_json Sample.no_running Sample.running_json
  = Ok Sample.running
  /\ exists output,
       VBNRunningSpeed.to_json Sample.running = Ok output
       /\ output !! "sync_file" = Some (VBNRunningSpeed.JStr "sync.h5")
       /\ output !! "use_lowpass_filter" = Some (VBNRunningSpeed.JBool false)
       /\ output !! "zscore_threshold"
          = Some (VBNRunningSpeed.JFloat
                    {| VBNRunningSpeed.literal := "10.0" |})
       /\ output !! "session" = None.
Proof.
  assert (H1 : VBNRunningSpeed.from_json Sample.no_running
                 Sample.running_json = Ok Sample.running)
    by (vm_compute; reflexivity).
  assert (H2 : Forall (fun key => Sample.running_json !! key
                                  <> Some VBNRunningSpeed.JNone) file_keys).
  { repeat constructor; vm_compute; discriminate. }
  destruct (to_json_after_from_json Sample.no_running Sample.running_json
              Sample.running H1 H2)
    as (output & Hout & Hfiles & Hlow & Hz & _ & Hdom).
  split; [exact H1 |]. exists output.
  inversion Hfiles as [|? ? Hsync _]; subst.
  split; [exact Hout |].
  split; [rewrite Hsync; vm_compute; reflexivity |].
  split; [rewrite Hlow; vm_compute; reflexivity |].
  split; [rewrite Hz; vm_compute; reflexivity |].
  apply not_elem_of_dom. rewrite Hdom.
    apply (bool_decide_unpack
             ("session" ∉ (list_to_set
                             (file_keys ++ ["use_lowpass_filter";
                                            "zscore_threshold"; "filtered"])
                           : gset string))).
  vm_compute. exact I.
Defined.

Lemma from_json_after_to_json_witness :
  (VBNRunningSpeed._filtered Sample.filtered_running
   = VBNRunningSpeed.JBool true
   /\ VBNRunningSpeed.to_json Sample.filtered_running
      = Ok (written Sample.filtered_running))
  /\ VBNRunningSpeed.from_json Sample.no_running
       (written Sample.filtered_running)
     = Ok {| VBNRunningSpeed.value := [];
             VBNRunningSpeed._sync_file :=
               VBNRunningSpeed._sync_file Sample.filtered_running;
             VBNRunningSpeed._behavior_stimulus_file :=
               VBNRunningSpeed._behavior_stimulus_file Sample.filtered_running;
             VBNRunningSpeed._replay_stimulus_file :=
               VBNRunningSpeed._replay_stimulus_file Sample.filtered_running;
             VBNRunningSpeed._mapping_stimulus_file :=
               VBNRunningSpeed._mapping_stimulus_file Sample.filtered_running;
             VBNRunningSpeed._use_lowpass_filter :=
               VBNRunningSpeed._use_lowpass_filter Sample.filtered_running;
             VBNRunningSpeed._zscore_threshold :=
               VBNRunningSpeed._zscore_threshold Sample.filtered_running;
             VBNRunningSpeed._filtered := VBNRunningSpeed.JBool false |}.
Proof.
  assert (H : VBNRunningSpeed.to_json Sample.filtered_running
              = Ok (written Sample.filtered_running)).
  { apply to_json_written. repeat constructor; discriminate. }
  split; [split; [reflexivity | exact H] |].
  exact (from_json_after_to_json Sample.no_running Sample.filtered_running
           (written Sample.filtered_running) [] H eq_refl).
Defined.
